(** * Deep Survival Machines: the training utilities of [dsm/utilities.py]

    A shallow embedding of [get_optimizer], [pretrain_dsm],
    [_reshape_tensor_with_nans], [_get_padded_features],
    [_get_padded_targets] and [train_dsm], and the properties of the
    training procedure that follow from the code. *)

From Stdlib Require Import ZArith Lia List Bool.
From Stdlib Require Import Floats.SpecFloat.
From stdpp Require Import base option list strings gmap fin_maps.

Open Scope string_scope.
Open Scope list_scope.
Open Scope nat_scope.

(** ** Numbers

    Python floats, numpy [float64] and torch [double] entries are IEEE 754
    binary64 values: [spec_float] at precision 53 and maximal exponent 1024. *)

Module F64.

Definition float : Type := spec_float.

Definition prec : Z := 53%Z.
Definition emax : Z := 1024%Z.

(** [float('inf')] and [np.nan]. *)
Definition inf : float := S754_infinity false.
Definition nan : float := S754_nan.

(** [np.isnan] / [torch.isnan]: exact test of the class of the value. *)
Definition isnan (v : float) : bool :=
  match v with
  | S754_nan => true
  | _ => false
  end.

Definition sub (a b : float) : float := SFsub prec emax a b.
Definition abs (a : float) : float := SFabs a.
(** [a < b] and [a >= b]; both are [False] as soon as one side is a NaN. *)
Definition lt (a b : float) : bool := SFltb a b.
Definition ge (a b : float) : bool := SFleb b a.
Definition le (a b : float) : bool := SFleb a b.

(** Values that are neither infinite nor NaN. *)
Definition is_finite (v : float) : bool :=
  match v with
  | S754_zero _ | S754_finite _ _ _ => true
  | _ => false
  end.

(** Strictly positive values (the usual convergence thresholds). *)
Definition is_pos (v : float) : bool := lt (S754_zero false) v.

End F64.

Export F64.

(** ** Exceptions *)

Inductive exn : Type :=
  | NotImplementedError (msg : string)
  | ValueError (msg : string)
  | ZeroDivisionError (msg : string)
  | IndexError (msg : string)
  | UnboundLocalError (msg : string)
  (** a reference that the store does not hold: no Python program can build
      one, the embedding reports it as an error of its own *)
  | DanglingReference.

Inductive result (A : Type) : Type :=
  | Ok (a : A)
  | Raise (e : exn).
Arguments Ok {A} a.
Arguments Raise {A} e.

Definition rbind {A B} (r : result A) (k : A -> result B) : result B :=
  match r with
  | Ok a => k a
  | Raise e => Raise e
  end.

Notation "'let!' x ':=' r 'in' k" := (rbind r (fun x => k))
  (at level 10, x name, r at level 100, k at level 200).

(** ** Arrays

    A two-dimensional numpy array is its list of rows together with its
    second dimension ([shape[1]], which an array without rows still has). *)

Record matrix : Type := Matrix {
  ncols : nat;
  rows : list (list float)
}.

(** A three-dimensional array or tensor, indexed subject, position, feature. *)
Abbreviation tensor3 := (list (list (list float))).

Definition wf_matrix (m : matrix) : Prop :=
  Forall (fun r => length r = ncols m) (rows m).

(** [len(x_)] of a two-dimensional array: its number of rows. *)
Definition len (m : matrix) : nat := length (rows m).

(** Python's [max] of a list of lengths: a [ValueError] on the empty list
    (with the message of the Python 3 versions of the code's time). *)
Definition py_max (l : list nat) : result nat :=
  match l with
  | [] => Raise (ValueError "max() arg is an empty sequence")
  | n :: l' => Ok (fold_left Nat.max l' n)
  end.

(** [np.nan*np.ones((r, c))] and [np.nan*np.ones(r)]. *)
Definition nan_rows (r c : nat) : list (list float) := repeat (repeat nan c) r.
Definition nan_vec (r : nat) : list float := repeat nan r.

(** [np.concatenate([x, pads])] of two two-dimensional arrays (along the
    rows); here both always carry the same second dimension. *)
Definition concatenate (x : matrix) (pads : list (list float)) : matrix :=
  Matrix (ncols x) (rows x ++ pads).

(** [np.array] of a list of two-dimensional arrays: a three-dimensional
    array when they all have one shape.  The padded arrays below all have
    the same number of rows, so only the second dimension can differ, and
    numpy refuses such a list. *)
Definition same_ncols (l : list matrix) : bool :=
  match l with
  | [] => true
  | m :: l' => forallb (fun m' => Nat.eqb (ncols m') (ncols m)) l'
  end.

Definition np_array (l : list matrix) : result tensor3 :=
  if same_ncols l then Ok (map rows l)
  else Raise (ValueError "inhomogeneous shape").

(** ** The padding helpers *)

(** [_get_padded_features]. *)
Definition _get_padded_features (x : list matrix) : result tensor3 :=
  let! d := py_max (map len x) in
  let padx :=
    map (fun xi => concatenate xi (nan_rows (d - len xi) (ncols xi))) x in
  np_array padx.

(** [_get_padded_targets]; the final [[:, :, np.newaxis]] wraps every entry
    in a last axis of length one. *)
Definition newaxis (a : list (list float)) : tensor3 :=
  map (map (fun v => [v])) a.

Definition _get_padded_targets (t : list (list float)) : result tensor3 :=
  let! d := py_max (map (@length float) t) in
  let padt := map (fun ti => ti ++ nan_vec (d - length ti)) t in
  Ok (newaxis padt).

(** [_reshape_tensor_with_nans]: [reshape(-1)] lists the entries in row-major
    order, and the mask [~torch.isnan(data)] keeps those that are not NaN. *)
Definition reshape_flat (data : tensor3) : list float := concat (concat data).

Definition _reshape_tensor_with_nans (data : tensor3) : list float :=
  List.filter (fun v => negb (isnan v)) (reshape_flat data).

(** Python slicing [l[start:stop]] along the first axis: a negative index
    counts from the end, and both ends are clamped to the list. *)
Definition slice_index (n i : Z) : Z :=
  if (i <? 0)%Z then Z.max 0 (n + i) else Z.min i n.

Definition py_slice {A : Type} (l : list A) (start stop : Z) : list A :=
  let n := Z.of_nat (length l) in
  let a := slice_index n start in
  let b := slice_index n stop in
  firstn (Z.to_nat (b - a)) (skipn (Z.to_nat a) l).

(** ** Models, optimizers and the store of objects *)

Inductive dtype : Type := Float32 | Float64.

(** Rounding of a double to single precision, as a write into a [float32]
    tensor does. *)
Definition round32 (v : float) : float :=
  match v with
  | S754_finite s m e => binary_round 24 128 s m e
  | _ => v
  end.

(** The value a tensor of precision [dt] holds after a [fill_(v)] that goes
    through.  [fill_] into a [float32] tensor refuses a finite value beyond
    the single precision range with a [RuntimeError]; that refusal is not
    part of this definition, [fill_accepts] below states it: for a value
    outside [fill_accepts] the code raises where these definitions go
    on. *)
Definition store_as (dt : dtype) (v : float) : float :=
  match dt with
  | Float64 => v
  | Float32 => round32 v
  end.

(** What [state_dict()] holds: the two distribution parameters and the
    remaining trainable weights of the network. *)
Record state_dict (W : Type) : Type := StateDict {
  shape : float;
  scale : float;
  weights : W
}.
Arguments StateDict {W} _ _ _.
Arguments shape {W} _.
Arguments scale {W} _.
Arguments weights {W} _.

(** Modelled from the spec: the class [DeepSurvivalMachinesTorch] of
    [dsm.dsm_torch] is not among the sources.  A model exposes trainable
    parameters, two scalar parameters [shape] and [scale], a
    distribution-family tag, an optimizer-choice tag and a conversion to
    double precision. *)
Record Model (W : Type) : Type := MkModel {
  dist : string;
  optimizer : string;
  precision : dtype;
  params : state_dict W
}.
Arguments MkModel {W} _ _ _ _.
Arguments dist {W} _.
Arguments optimizer {W} _.
Arguments precision {W} _.
Arguments params {W} _.

(** The collaborators the training code calls by name: the model class, the
    two losses of [dsm.losses] with their gradients, and the update rules of
    [torch.optim]. *)
Inductive optimizer_kind : Type := Adam | SGD | RMSprop.

Class Collaborators : Type := {
  Weights : Type;
  Grad : Type;
  Buffers : Type;
  (** the parameters a new [DeepSurvivalMachinesTorch(inputdim, k, dist)]
      starts from *)
  init_params : nat -> nat -> string -> state_dict Weights;
  (** [.double()] on the weights *)
  weights_double : Weights -> Weights;
  unconditional_loss : Model Weights -> list float -> list float -> float;
  conditional_loss :
    Model Weights -> tensor3 -> list float -> list float -> bool -> float;
  (** what [loss.backward()] leaves in the gradient buffers after
      [optimizer.zero_grad()] has cleared them *)
  unconditional_grad : Model Weights -> list float -> list float -> Grad;
  conditional_grad :
    Model Weights -> tensor3 -> list float -> list float -> bool -> Grad;
  (** a fresh optimizer's buffers and the update of [optimizer.step()] *)
  init_buffers : optimizer_kind -> Buffers;
  update :
    optimizer_kind -> float -> Buffers -> Grad -> state_dict Weights ->
    state_dict Weights * Buffers
}.

(** Objects live in a store; a variable holds a reference.  [model] inside
    [train_dsm] and the caller's model are one object. *)
Definition loc : Type := positive.

(** ** Loops

    A [for] loop over a range whose body may [break] or [return]: what the
    body asks for, and how the loop ended. *)
Inductive ctl (S : Type) : Type :=
  | Next (s : S)
  | Break (s : S)
  | Return (s : S).
Arguments Next {S} s.
Arguments Break {S} s.
Arguments Return {S} s.

Inductive loop_exit : Type := Exhausted | Broke | Returned.

Abbreviation model := (Model Weights).
Abbreviation heap := (gmap loc (Model Weights)).

Section Embedding.

Context {C : Collaborators}.

Definition deref (h : heap) (l : loc) : result model :=
  match h !! l with
  | Some m => Ok m
  | None => Raise DanglingReference
  end.

(** [DeepSurvivalMachinesTorch(inputdim, k, dist=dist)]: a new object, in
    single precision, whose optimizer tag is the class default. *)
Definition DeepSurvivalMachinesTorch
    (inputdim k : nat) (dist : string) (h : heap) : loc * heap :=
  let l := fresh (dom h) in
  (l, <[l := MkModel dist "Adam" Float32 (init_params inputdim k dist)]> h).

(** [model.double()]. *)
Definition to_double (m : model) : model :=
  MkModel (dist m) (optimizer m) Float64
    (StateDict (shape (params m)) (scale (params m))
       (weights_double (weights (params m)))).

Definition double (l : loc) (h : heap) : result heap :=
  let! m := deref h l in
  Ok (<[l := to_double m]> h).

(** [model.shape.data.fill_(v)] and [model.scale.data.fill_(v)]. *)
Definition fill_shape (v : float) (m : model) : model :=
  MkModel (dist m) (optimizer m) (precision m)
    (StateDict (store_as (precision m) v) (scale (params m))
       (weights (params m))).

Definition fill_scale (v : float) (m : model) : model :=
  MkModel (dist m) (optimizer m) (precision m)
    (StateDict (shape (params m)) (store_as (precision m) v)
       (weights (params m))).

(** [model.load_state_dict(sd)]. *)
Definition load_state_dict (m : model) (sd : state_dict Weights) : model :=
  MkModel (dist m) (optimizer m) (precision m) sd.

(** An optimizer is bound to the parameters of one object of the store. *)
Record Optimizer : Type := MkOptimizer {
  kind : optimizer_kind;
  bound : loc;
  lr : float;
  buffers : Buffers
}.

(** The optimizer that a constructor of [torch.optim] returns.  The
    constructors refuse a negative learning rate with a [ValueError], [Adam]
    and [RMSprop] a NaN as well; that check is not part of this definition,
    [valid_rate] below states it: for a rate outside [valid_rate] the code
    raises where these definitions go on. *)
Definition new_optimizer (k : optimizer_kind) (l : loc) (rate : float)
    : Optimizer :=
  MkOptimizer k l rate (init_buffers k).

(** The update of [optimizer.step()] on the buffers of the optimizer and the
    object it is bound to, with the gradient [g] in the gradient buffers. *)
Definition descend (k : optimizer_kind) (rate : float) (g : Grad)
    (s : Buffers * model) : Buffers * model :=
  let '(p', b') := update k rate (fst s) g (params (snd s)) in
  (b', load_state_dict (snd s) p').

(** [optimizer.step()]: the bound object's parameters are updated in place. *)
Definition step (o : Optimizer) (g : Grad) (h : heap)
    : result (Optimizer * heap) :=
  let! m := deref h (bound o) in
  let s' := descend (kind o) (lr o) g (buffers o, m) in
  Ok (MkOptimizer (kind o) (bound o) (lr o) (fst s'),
      <[bound o := snd s']> h).

(** [get_optimizer]. *)
Definition get_optimizer (h : heap) (l : loc) (rate : float)
    : result Optimizer :=
  let! m := deref h l in
  if String.eqb (optimizer m) "Adam" then Ok (new_optimizer Adam l rate)
  else if String.eqb (optimizer m) "SGD" then Ok (new_optimizer SGD l rate)
  else if String.eqb (optimizer m) "RMSProp"
       then Ok (new_optimizer RMSprop l rate)
  else Raise (NotImplementedError
                ("Optimizer " +:+ optimizer m +:+ " is not implemented")).

(** The loop itself, over the store. *)
Fixpoint for_range {S : Type}
    (body : nat -> S -> heap -> result (ctl S * heap))
    (range : list nat) (s : S) (h : heap) : result (loop_exit * S * heap) :=
  match range with
  | [] => Ok (Exhausted, s, h)
  | i :: range' =>
      let! r := body i s h in
      match r with
      | (Next s', h') => for_range body range' s' h'
      | (Break s', h') => Ok (Broke, s', h')
      | (Return s', h') => Ok (Returned, s', h')
      end
  end.

(** [np.argmax] of a one-dimensional [float64] array: the first index of the
    largest entry, where a NaN counts as larger than everything (numpy's scan
    moves on an entry that is not [<=] the current one and stops at a NaN). *)
Fixpoint argmax_scan (mp : float) (max_ind i : nat) (ip : list float) : nat :=
  match ip with
  | [] => max_ind
  | c :: rest =>
      if negb (le c mp)
      then (if isnan c then i else argmax_scan c i (S i) rest)
      else argmax_scan mp max_ind (S i) rest
  end.

Definition np_argmax (a : list float) : result nat :=
  match a with
  | [] => Raise (ValueError "attempt to get argmax of an empty sequence")
  | c :: rest => Ok (if isnan c then 0 else argmax_scan c 0 1 rest)
  end.

(** [l[i]] for a non-negative index. *)
Definition index {A : Type} (l : list A) (i : nat) : result A :=
  match l !! i with
  | Some a => Ok a
  | None => Raise (IndexError "list index out of range")
  end.

(** The binary64 values of the literals [1e-2] and [1e-4]. *)
Definition lit_1e_2 : float := S754_finite false 5764607523034235 (-59).
Definition lit_1e_4 : float := S754_finite false 7378697629483821 (-66).

(** ** [pretrain_dsm] *)

Record pretrain_locals : Type := PretrainLocals {
  premodel : loc;
  pre_optimizer : Optimizer;
  pre_oldcost : float;
  pre_patience : nat;
  pre_costs : list float
}.

(** The bookkeeping at the end of one iteration, lines 68 to 74.
    [costs[-1]] is the entry appended just before, [valid_loss]. *)
Definition pretrain_decide (thres valid_loss : float) (o : Optimizer)
    (fr : pretrain_locals) : ctl pretrain_locals :=
  let costs := pre_costs fr ++ [valid_loss] in
  if lt (abs (sub valid_loss (pre_oldcost fr))) thres then
    let patience := pre_patience fr + 1 in
    if patience =? 3
    then Break (PretrainLocals (premodel fr) o (pre_oldcost fr) patience costs)
    else Next (PretrainLocals (premodel fr) o valid_loss patience costs)
  else Next (PretrainLocals (premodel fr) o valid_loss (pre_patience fr) costs).

(** One iteration of the loop. *)
Definition pretrain_body (t_train e_train t_valid e_valid : list float)
    (thres : float) (_ : nat) (fr : pretrain_locals) (h : heap)
    : result (ctl pretrain_locals * heap) :=
  let! pm := deref h (premodel fr) in
  let g := unconditional_grad pm t_train e_train in
  let! r := step (pre_optimizer fr) g h in
  let '(o, h1) := r in
  let! pm1 := deref h1 (premodel fr) in
  let valid_loss := unconditional_loss pm1 t_valid e_valid in
  Ok (pretrain_decide thres valid_loss o fr, h1).

(** The function up to its [return]: how the loop ended, the local
    variables and the store. *)
Definition pretrain_dsm_run (h : heap) (l : loc)
    (t_train e_train t_valid e_valid : list float)
    (n_iter : nat) (rate thres : float)
    : result (loop_exit * pretrain_locals * heap) :=
  let! m := deref h l in
  let '(p, h1) := DeepSurvivalMachinesTorch 1 1 (dist m) h in
  let! h2 := double p h1 in
  let o := new_optimizer Adam p rate in
  for_range (pretrain_body t_train e_train t_valid e_valid thres)
    (seq 0 n_iter) (PretrainLocals p o inf 0 []) h2.

Definition pretrain_dsm (h : heap) (l : loc)
    (t_train e_train t_valid e_valid : list float)
    (n_iter : nat) (rate thres : float) : result (loc * heap) :=
  let! r := pretrain_dsm_run h l t_train e_train t_valid e_valid
              n_iter rate thres in
  let '(_, fr, h') := r in
  Ok (premodel fr, h').

(** ** [train_dsm] *)

Record train_locals : Type := TrainLocals {
  tr_optimizer : Optimizer;
  tr_patience : nat;
  tr_oldcost : float;
  (** [None] once [del dics] has run *)
  tr_dics : option (list (state_dict Weights));
  tr_costs : list float;
  tr_i : nat
}.

(** The training data and options of one call. *)
Record train_args : Type := TrainArgs {
  x_train : tensor3;
  t_train : tensor3;
  e_train : tensor3;
  x_valid : tensor3;
  t_valid : tensor3;
  e_valid : tensor3;
  n_iter : nat;
  learning_rate : float;
  elbo : bool;
  bs : Z
}.

(** The slices of batch [j]. *)
Definition batch_slice (a : tensor3) (bs : Z) (j : nat) : tensor3 :=
  py_slice a (Z.of_nat j * bs) ((Z.of_nat j + 1) * bs).

(** The body of the loop over the batches. *)
Definition train_batch (l : loc) (a : train_args) (j : nat)
    (o : Optimizer) (h : heap) : result (ctl Optimizer * heap) :=
  let xb := batch_slice (x_train a) (bs a) j in
  let tb := batch_slice (t_train a) (bs a) j in
  let eb := batch_slice (e_train a) (bs a) j in
  let! m := deref h l in
  let g := conditional_grad m xb (_reshape_tensor_with_nans tb)
             (_reshape_tensor_with_nans eb) (elbo a) in
  let! r := step o g h in
  Ok (Next (fst r), snd r).

Definition get_dics (fr : train_locals)
    : result (list (state_dict Weights)) :=
  match tr_dics fr with
  | Some d => Ok d
  | None => Raise (UnboundLocalError "dics")
  end.

(** The body of the loop over the epochs.  [costs[-1]] is the entry appended
    just before, [valid_loss]. *)
Definition train_epoch (l : loc) (a : train_args) (nbatches : Z)
    (t_valid_ e_valid_ : list float)
    (i : nat) (fr : train_locals) (h : heap)
    : result (ctl train_locals * heap) :=
  let! r := for_range (train_batch l a) (seq 0 (Z.to_nat nbatches))
              (tr_optimizer fr) h in
  let '(_, o, h1) := r in
  let! m := deref h1 l in
  let valid_loss := conditional_loss m (x_valid a) t_valid_ e_valid_ false in
  let costs := tr_costs fr ++ [valid_loss] in
  let! dics0 := get_dics fr in
  let dics := dics0 ++ [params m] in
  if ge valid_loss (tr_oldcost fr) then
    if tr_patience fr =? 2 then
      let! maxm := np_argmax costs in
      let! sd := index dics maxm in
      let h2 := <[l := load_state_dict m sd]> h1 in
      Ok (Return (TrainLocals o (tr_patience fr) (tr_oldcost fr) None costs i),
          h2)
    else
      Ok (Next (TrainLocals o (tr_patience fr + 1) valid_loss (Some dics)
                  costs i), h1)
  else
    Ok (Next (TrainLocals o 0 valid_loss (Some dics) costs i), h1).

(** [int(x_train.shape[0]/bs)+1]: the quotient is truncated towards zero
    (a data set has far fewer than 2^53 subjects, so the float quotient
    truncates to the integer quotient). *)
Definition count_batches (n : nat) (bs : Z) : result Z :=
  if (bs =? 0)%Z then Raise (ZeroDivisionError "division by zero")
  else Ok (Z.quot (Z.of_nat n) bs + 1)%Z.

(** Lines 108 to 137: pretraining, the copy of [shape] and [scale], the
    conversion to double precision, the optimizer and the initial values of
    the local variables. *)
Definition train_setup (h : heap) (l : loc) (a : train_args)
    : result (train_locals * Z * heap) :=
  let t_train_ := _reshape_tensor_with_nans (t_train a) in
  let e_train_ := _reshape_tensor_with_nans (e_train a) in
  let t_valid_ := _reshape_tensor_with_nans (t_valid a) in
  let e_valid_ := _reshape_tensor_with_nans (e_valid a) in
  let! r := pretrain_dsm h l t_train_ e_train_ t_valid_ e_valid_
              (100 * 100) lit_1e_2 lit_1e_4 in
  let '(p, h1) := r in
  let! pm := deref h1 p in
  let! m1 := deref h1 l in
  let h2 := <[l := fill_shape (shape (params pm)) m1]> h1 in
  let! m2 := deref h2 l in
  let h3 := <[l := fill_scale (scale (params pm)) m2]> h2 in
  let! h4 := double l h3 in
  let o := new_optimizer Adam l (learning_rate a) in
  let! nbatches := count_batches (length (x_train a)) (bs a) in
  Ok (TrainLocals o 0 inf (Some []) [] 0, nbatches, h4).

Definition train_dsm_run (h : heap) (l : loc) (a : train_args)
    : result (loop_exit * train_locals * heap) :=
  let! r := train_setup h l a in
  let '(fr, nbatches, h0) := r in
  for_range
    (train_epoch l a nbatches (_reshape_tensor_with_nans (t_valid a))
       (_reshape_tensor_with_nans (e_valid a)))
    (seq 0 (n_iter a)) fr h0.

(** [train_dsm]: both [return] statements give back the reference received
    and the epoch index [i]. *)
Definition train_dsm (h : heap) (l : loc) (a : train_args)
    : result (loc * nat * heap) :=
  let! r := train_dsm_run h l a in
  let '(_, fr, h') := r in
  Ok (l, tr_i fr, h').

(** ** The course of the parameters

    The stopping rules read the validation losses only, so the parameters
    follow a course that the stopping rules cut short but do not bend: the
    state of the optimizer's buffers and of the object after [k] rounds. *)

(** Pretraining: the new single-feature object after [.double()], and one
    iteration. *)
Definition premodel_init (d : string) : Buffers * model :=
  (init_buffers Adam, to_double (MkModel d "Adam" Float32 (init_params 1 1 d))).

Definition premodel_at (d : string) (rate : float)
    (t_train e_train : list float) (k : nat) : Buffers * model :=
  Nat.iter k
    (fun s => descend Adam rate (unconditional_grad (snd s) t_train e_train) s)
    (premodel_init d).

(** The validation loss recorded by iteration [k], and the value it is
    compared with. *)
Definition pre_cost (d : string) (rate : float)
    (t_train e_train t_valid e_valid : list float) (k : nat) : float :=
  unconditional_loss (snd (premodel_at d rate t_train e_train (S k)))
    t_valid e_valid.

Definition previous (cost : nat -> float) (k : nat) : float :=
  match k with
  | 0 => inf
  | S k' => cost k'
  end.

Definition small_change (cost : nat -> float) (thres : float) (k : nat)
    : bool :=
  lt (abs (sub (cost k) (previous cost k))) thres.

(** Training: the batches of an epoch, one batch, one epoch. *)
Definition batches (a : train_args) (nbatches : Z)
    : list (tensor3 * tensor3 * tensor3) :=
  map (fun j => (batch_slice (x_train a) (bs a) j,
                 batch_slice (t_train a) (bs a) j,
                 batch_slice (e_train a) (bs a) j))
      (seq 0 (Z.to_nat nbatches)).

Definition batch_descend (a : train_args)
    (s : Buffers * model) (b : tensor3 * tensor3 * tensor3)
    : Buffers * model :=
  let '(xb, tb, eb) := b in
  descend Adam (learning_rate a)
    (conditional_grad (snd s) xb (_reshape_tensor_with_nans tb)
       (_reshape_tensor_with_nans eb) (elbo a)) s.

Definition epoch_descend (a : train_args) (nbatches : Z)
    (s : Buffers * model) : Buffers * model :=
  fold_left (batch_descend a) (batches a nbatches) s.

Definition model_after (a : train_args) (nbatches : Z)
    (s0 : Buffers * model) (k : nat) : Buffers * model :=
  Nat.iter k (epoch_descend a nbatches) s0.

(** The validation cost recorded by epoch [k] and the snapshot it keeps. *)
Definition epoch_cost (a : train_args) (nbatches : Z)
    (s0 : Buffers * model) (k : nat) : float :=
  conditional_loss (snd (model_after a nbatches s0 (S k))) (x_valid a)
    (_reshape_tensor_with_nans (t_valid a))
    (_reshape_tensor_with_nans (e_valid a)) false.

Definition epoch_snapshot (a : train_args) (nbatches : Z)
    (s0 : Buffers * model) (k : nat) : state_dict Weights :=
  params (snd (model_after a nbatches s0 (S k))).

End Embedding.

(** ** The stopping rules on a stream of costs

    The bookkeeping of the two loops, read on the costs alone: where the loop
    over [seq i0 n] ends when it is entered with the given patience (and
    previous cost). *)

(** [pretrain_dsm]: how the loop ends, the number of iterations run so far
    and the final patience. *)
Fixpoint pre_stop (small : nat -> bool) (i0 n patience : nat)
    : loop_exit * nat * nat :=
  match n with
  | 0 => (Exhausted, i0, patience)
  | S n' =>
      if small i0 then
        if patience + 1 =? 3 then (Broke, S i0, patience + 1)
        else pre_stop small (S i0) n' (patience + 1)
      else pre_stop small (S i0) n' patience
  end.

(** [train_dsm]: the epoch at which the loop returns, if it does. *)
Fixpoint train_stop (cost : nat -> float) (i0 n patience : nat)
    (oldcost : float) : option nat :=
  match n with
  | 0 => None
  | S n' =>
      if ge (cost i0) oldcost then
        if patience =? 2 then Some i0
        else train_stop cost (S i0) n' (patience + 1) (cost i0)
      else train_stop cost (S i0) n' 0 (cost i0)
  end.

(** ** The order of the floats

    [SFcompare] on two values that are not NaN is the lexicographic order of
    three integers: the class and sign, then the exponent, then the
    mantissa. *)
Definition key (v : float) : Z * Z * Z :=
  match v with
  | S754_infinity true => (-2, 0, 0)%Z
  | S754_finite true m e => (-1, - e, Z.neg m)%Z
  | S754_zero _ => (0, 0, 0)%Z
  | S754_nan => (0, 0, 0)%Z
  | S754_finite false m e => (1, e, Z.pos m)%Z
  | S754_infinity false => (2, 0, 0)%Z
  end.

Definition key_le (a b : Z * Z * Z) : Prop :=
  (a.1.1 < b.1.1 \/
   (a.1.1 = b.1.1 /\ (a.1.2 < b.1.2 \/ (a.1.2 = b.1.2 /\ a.2 <= b.2))))%Z.

(** ** A small instance of the collaborators

    The weights of an object count the optimizer steps taken on it, the
    buffers of an optimizer count its steps, and the two losses read the
    count off a table. *)

Module Toy.

Definition f0 : float := S754_zero false.
Definition f1_0 : float := S754_finite false 4503599627370496 (-52).
Definition f1_2 : float := S754_finite false 5404319552844595 (-52).
Definition f1_3 : float := S754_finite false 5854679515581645 (-52).
Definition f1_5 : float := S754_finite false 6755399441055744 (-52).
Definition f2_0 : float := S754_finite false 4503599627370496 (-51).
Definition f3_0 : float := S754_finite false 6755399441055744 (-51).

Definition toy (ucost ccost : nat -> float) : Collaborators := {|
  Weights := nat;
  Grad := unit;
  Buffers := nat;
  init_params := fun _ _ _ => StateDict f0 f0 0;
  weights_double := fun w => w;
  unconditional_loss := fun m _ _ => ucost (weights (params m));
  conditional_loss := fun m _ _ _ _ => ccost (weights (params m));
  unconditional_grad := fun _ _ _ => tt;
  conditional_grad := fun _ _ _ _ _ => tt;
  init_buffers := fun _ => 0;
  update := fun _ _ b _ p =>
    (StateDict (shape p) (scale p) (S (weights p)), S b)
|}.

(** The validation costs 1.0, 1.2, 1.3, 1.5, 1.5, ... of the successive
    epochs (the entry after [n] steps is at index [n - 1]), and a constant
    loss for pretraining. *)
Definition rising (n : nat) : float :=
  nth (n - 1) [f1_0; f1_2; f1_3; f1_5] f1_5.

Definition flat (_ : nat) : float := f1_0.

Definition T : Collaborators := toy flat rising.

(** A store with one model at location 1, declaring optimizer [o]. *)
Definition model0 (o : string) : Model nat :=
  MkModel "Weibull" o Float32 (StateDict f1_0 f1_0 0).

Definition heap0 (o : string) : gmap loc (Model nat) :=
  {[ 1%positive := model0 o ]}.

(** One subject with one observation and one feature, batches of 100,
    at most ten epochs. *)
Definition args0 : train_args :=
  TrainArgs [[[f1_0]]] [[[f2_0]]] [[[f1_0]]]
            [[[f1_0]]] [[[f3_0]]] [[[f1_0]]]
            10 lit_1e_4 true 100.

(** A hundred subjects and batches of a hundred. *)
Definition args100 : train_args :=
  TrainArgs (repeat [[f1_0]] 100) (repeat [[f2_0]] 100) (repeat [[f1_0]] 100)
            [[[f1_0]]] [[[f3_0]]] [[[f1_0]]]
            10 lit_1e_4 true 100.

End Toy.

(** ** Further readings of the costs and further scenarios *)

(** Epoch [k] of [train_dsm] does not improve: its validation cost is at
    least the one before ([float('inf')] before the first epoch). *)
Definition non_improving (cost : nat -> float) (k : nat) : bool :=
  ge (cost k) (previous cost k).

(** Three epochs in a row, from [k] on, that do not improve. *)
Definition three_in_a_row (cost : nat -> float) (k : nat) : Prop :=
  non_improving cost k = true /\ non_improving cost (k + 1) = true /\
  non_improving cost (k + 2) = true.

(** The number of iterations among the first [k] whose change is small. *)
Definition small_changes (small : nat -> bool) (k : nat) : nat :=
  length (List.filter small (seq 0 k)).

(** The model as the setup of [train_dsm] leaves it for the first epoch:
    [shape] and [scale] filled from the premodel [pm], then [.double()]. *)
Definition warm_start {C : Collaborators} (pm m : model) : model :=
  to_double (fill_scale (scale (params pm))
               (fill_shape (shape (params pm)) m)).

(** The first index of a largest entry, read off the order of the floats. *)
Definition first_largest (a : list float) (m : nat) : Prop :=
  exists cm, a !! m = Some cm /\
    Forall (fun c => le c cm = true) a /\
    forall j c, j < m -> a !! j = Some c -> le cm c = false.

(** A learning rate that every constructor of [torch.optim] accepts:
    [0.0 <= lr]. *)
Definition valid_rate (rate : float) : bool := le (S754_zero false) rate.

(** The largest single precision value, [2^128 - 2^104]. *)
Definition float32_max : float := S754_finite false 9007198717870080 75.

(** [fill_(v)] on a tensor of precision [dt] accepts [v]: any value for
    double precision; an infinity, a NaN or a value within the single
    precision range for single precision. *)
Definition fill_accepts (dt : dtype) (v : float) : bool :=
  match dt with
  | Float64 => true
  | Float32 => negb (is_finite v) || le (abs v) float32_max
  end.

(** Lines 124 and 125 of [train_dsm] go through for the model [m]: [fill_]
    accepts the [shape] and the [scale] of the premodel that pretraining
    leaves. *)
Definition fills_accepted {C : Collaborators} (h : heap) (l : loc)
    (a : train_args) (m : model) : Prop :=
  forall (p : loc) (h1 : heap) (pm : model),
    pretrain_dsm h l (_reshape_tensor_with_nans (t_train a))
      (_reshape_tensor_with_nans (e_train a))
      (_reshape_tensor_with_nans (t_valid a))
      (_reshape_tensor_with_nans (e_valid a))
      (100 * 100) lit_1e_2 lit_1e_4 = Ok (p, h1) ->
    h1 !! p = Some pm ->
    fill_accepts (precision m) (shape (params pm)) = true /\
    fill_accepts (precision m) (scale (params pm)) = true.

(** The local variables that a loop body hands on. *)
Definition ctl_state {S : Type} (c : ctl S) : S :=
  match c with
  | Next s | Break s | Return s => s
  end.

(** The arguments of the calls of [conditional_loss] in the loop over the
    batches of one epoch: the covariates of the batch, and its times and
    events unrolled and stripped. *)
Definition conditional_inputs (a : train_args) (nbatches : Z)
    : list (tensor3 * list float * list float) :=
  map (fun b : tensor3 * tensor3 * tensor3 =>
         (b.1.1, _reshape_tensor_with_nans b.1.2,
          _reshape_tensor_with_nans b.2))
      (batches a nbatches).

(** One optimizer step on the gradient of [conditional_loss] at the given
    arguments. *)
Definition input_descend {C : Collaborators} (a : train_args)
    (s : Buffers * model) (inp : tensor3 * list float * list float)
    : Buffers * model :=
  descend Adam (learning_rate a)
    (conditional_grad (snd s) inp.1.1 inp.1.2 inp.2 (elbo a)) s.

(** The validation cost that epoch [k] records when every epoch takes the
    state of the optimizer's buffers and of the model from [s] to
    [train s], starting from [s0]. *)
Definition valid_cost {C : Collaborators} (a : train_args)
    (train : Buffers * model -> Buffers * model) (s0 : Buffers * model)
    (k : nat) : float :=
  conditional_loss (snd (Nat.iter (S k) train s0)) (x_valid a)
    (_reshape_tensor_with_nans (t_valid a))
    (_reshape_tensor_with_nans (e_valid a)) false.

(** The body of the loop over the epochs trains by [train]: entered with
    the model at [l] and the buffers of the optimizer in the state [s], it
    records the validation cost of [train s] and hands on an optimizer with
    the buffers of [train s]; it returns when this cost is at least
    [oldcost] at patience 2, and otherwise goes on to the next epoch with
    the model of [train s] at [l], its parameters as the newest snapshot,
    the patience one higher or back at 0, and this cost as [oldcost]. *)
Definition epoch_trains_by {C : Collaborators} (l : loc) (a : train_args)
    (nbatches : Z) (train : Buffers * model -> Buffers * model) : Prop :=
  forall (s : Buffers * model) (i patience ip : nat) (oldcost : float)
         (dics : list (state_dict Weights)) (costs : list float) (h : heap),
    h !! l = Some (snd s) -> length dics = length costs ->
    let o := MkOptimizer Adam l (learning_rate a) (fst (train s)) in
    let valid_loss := valid_cost a train s 0 in
    exists c h',
      train_epoch l a nbatches (_reshape_tensor_with_nans (t_valid a))
        (_reshape_tensor_with_nans (e_valid a)) i
        (TrainLocals (MkOptimizer Adam l (learning_rate a) (fst s))
           patience oldcost (Some dics) costs ip) h = Ok (c, h') /\
      tr_optimizer (ctl_state c) = o /\
      tr_costs (ctl_state c) = costs ++ [valid_loss] /\
      if ge valid_loss oldcost && (patience =? 2) then
        exists fr', c = Return fr'
      else
        c = Next (TrainLocals o
                    (if ge valid_loss oldcost then patience + 1 else 0)
                    valid_loss (Some (dics ++ [params (snd (train s))]))
                    (costs ++ [valid_loss]) i) /\
        h' = <[l := snd (train s)]> h.

(** A call of [train_dsm] whose setup left the model [m0] at [l] trains by
    [train]: it runs [E] epochs, up to and including the first that the
    stopping rule returns from, or all [n_iter] of them; the buffers of its
    optimizer are then those of [E] rounds of [train], the validation costs
    on record those of the models after 1, ..., [E] rounds, and, when it
    does not return early, the model after [E] rounds is at [l]. *)
Definition run_trains_by {C : Collaborators} (h : heap) (l : loc)
    (a : train_args) (m0 : model)
    (train : Buffers * model -> Buffers * model) : Prop :=
  let s0 := (init_buffers Adam, m0) in
  let stop := train_stop (valid_cost a train s0) 0 (n_iter a) 0 inf in
  exists ex fr h',
    train_dsm_run h l a = Ok (ex, fr, h') /\
    let E := length (tr_costs fr) in
    ex = match stop with Some _ => Returned | None => Exhausted end /\
    E = match stop with Some i => S i | None => n_iter a end /\
    E <= n_iter a /\
    tr_optimizer fr =
      MkOptimizer Adam l (learning_rate a) (fst (Nat.iter E train s0)) /\
    tr_costs fr = map (valid_cost a train s0) (seq 0 E) /\
    (ex = Exhausted -> h' !! l = Some (snd (Nat.iter E train s0))).

Module Scenarios.

Import Toy.

(** Validation costs that fall from epoch to epoch. *)
Definition falling (n : nat) : float :=
  nth (n - 1) [f3_0; f2_0; f1_5; f1_3; f1_2; f1_0] f0.

(** Validation losses 1, 1, 2, 2, 3, 3, 1, 1, ...: every second change is
    zero, no two small changes follow each other. *)
Definition stairs (n : nat) : float :=
  nth (n - 1) [f1_0; f1_0; f2_0; f2_0; f3_0; f3_0] f1_0.

Definition Falling : Collaborators := toy flat falling.

(** A validation cost that stays at 2.0. *)
Definition Plateau : Collaborators := toy flat (fun _ => f2_0).
Definition Stairs : Collaborators := toy stairs rising.

(** The data of [args0] with another number of epochs or batch size. *)
Definition args_with (n : nat) (b : Z) : train_args :=
  TrainArgs [[[f1_0]]] [[[f2_0]]] [[[f1_0]]]
            [[[f1_0]]] [[[f3_0]]] [[[f1_0]]]
            n lit_1e_4 true b.

(** Five subjects with one to three observations of one feature. *)
Definition times5 : list (list float) :=
  [[f1_0]; [f1_2; f1_3]; [f1_5]; [f2_0; f3_0; f1_0]; [f1_2; nan]].

Definition features5 : list matrix :=
  [Matrix 1 [[f1_0]]; Matrix 1 [[f1_2]; [f1_3]]; Matrix 1 [[f1_5]];
   Matrix 1 [[f2_0]; [f3_0]; [f1_0]]; Matrix 1 [[f1_2]; [f1_3]]].

(** Five subjects padded to two observations, batches of two. *)
Definition x5 : tensor3 :=
  [[[f1_0]; [nan]]; [[f1_2]; [f1_3]]; [[f1_5]; [nan]];
   [[f2_0]; [f3_0]]; [[f1_0]; [nan]]].

Definition t5 : tensor3 :=
  [[[f2_0]; [nan]]; [[f1_2]; [f1_5]]; [[f3_0]; [nan]];
   [[f1_0]; [f1_3]]; [[f2_0]; [nan]]].

Definition e5 : tensor3 :=
  [[[f1_0]; [nan]]; [[f0]; [f1_0]]; [[f1_0]; [nan]];
   [[f0]; [f0]]; [[f1_0]; [nan]]].

Definition args5 (b : Z) : train_args :=
  TrainArgs x5 t5 e5 [[[f1_0]]] [[[f3_0]]] [[[f1_0]]] 10 lit_1e_4 true b.

End Scenarios.

(** * Properties *)

(** ** Lists *)

Lemma lookup_map {A B : Type} (f : A -> B) (l : list A) (i : nat) :
  map f l !! i = f <$> (l !! i).
Proof.
  revert i. induction l as [|a l IH]; intros [|i]; simpl; auto.
Qed.

Lemma costs_snoc {A : Type} (c : nat -> A) (k : nat) :
  map c (seq 0 k) ++ [c k] = map c (seq 0 (S k)).
Proof. rewrite seq_S, map_app. reflexivity. Qed.

Lemma lookup_repeat {A : Type} (a : A) (n i : nat) :
  i < n -> repeat a n !! i = Some a.
Proof.
  revert i. induction n as [|n IH]; intros [|i] Hi; simpl; try lia; auto.
  apply IH. lia.
Qed.

Lemma fold_max_ge (l : list nat) (n : nat) :
  n <= fold_left Nat.max l n /\ Forall (fun k => k <= fold_left Nat.max l n) l.
Proof.
  revert n. induction l as [|a l IH]; intros n; simpl.
  - split; [lia | constructor].
  - destruct (IH (Nat.max n a)) as [H1 H2]. split; [lia|].
    constructor; [lia | assumption].
Qed.

Lemma fold_max_in (l : list nat) (n : nat) :
  fold_left Nat.max l n = n \/ In (fold_left Nat.max l n) l.
Proof.
  revert n. induction l as [|a l IH]; intros n; simpl; [auto|].
  destruct (IH (Nat.max n a)) as [H | H]; [|auto].
  rewrite H. destruct (Nat.max_spec n a) as [[_ ->] | [_ ->]]; auto.
Qed.

(** [py_max] of a non-empty list is an element of it and bounds them all. *)
Lemma py_max_spec (l : list nat) :
  l <> [] ->
  exists d, py_max l = Ok d /\ In d l /\ Forall (fun k => k <= d) l.
Proof.
  destruct l as [|n l]; [congruence | intros _].
  exists (fold_left Nat.max l n). simpl.
  destruct (fold_max_ge l n) as [H1 H2].
  split; [reflexivity | split].
  - destruct (fold_max_in l n) as [-> | H]; auto.
  - constructor; assumption.
Qed.

(** ** A few values *)

Example py_slice_inside : py_slice [1; 2; 3; 4; 5] 1 3 = [2; 3].
Proof. reflexivity. Qed.

Example py_slice_clamped : py_slice [1; 2; 3; 4; 5] 3 10 = [4; 5].
Proof. reflexivity. Qed.

Example py_slice_past_end : py_slice [1; 2; 3; 4; 5] 5 10 = [].
Proof. reflexivity. Qed.

Example py_slice_negative : py_slice [1; 2; 3; 4; 5] (-2) 5 = [4; 5].
Proof. reflexivity. Qed.

Example np_argmax_first_largest :
  np_argmax [Toy.f1_0; Toy.f1_5; Toy.f1_2; Toy.f1_5] = Ok 1.
Proof. reflexivity. Qed.

Example np_argmax_nan :
  np_argmax [Toy.f1_0; Toy.f1_5; nan; Toy.f3_0] = Ok 2.
Proof. reflexivity. Qed.

Example ge_nan : ge nan inf = false /\ ge inf nan = false.
Proof. split; reflexivity. Qed.

Example ge_inf_inf : ge inf inf = true.
Proof. reflexivity. Qed.

Example padded_targets_2_3_1 :
  _get_padded_targets
    [[Toy.f1_0; Toy.f1_2]; [Toy.f1_3; Toy.f1_5; Toy.f2_0]; [Toy.f3_0]] =
  Ok [[[Toy.f1_0]; [Toy.f1_2]; [nan]];
      [[Toy.f1_3]; [Toy.f1_5]; [Toy.f2_0]];
      [[Toy.f3_0]; [nan]; [nan]]].
Proof. reflexivity. Qed.

Example count_batches_100_100 : count_batches 100 100 = Ok 2%Z.
Proof. reflexivity. Qed.

Example count_batches_zero :
  count_batches 100 0 = Raise (ZeroDivisionError "division by zero").
Proof. reflexivity. Qed.

(** ** The padding helpers *)

Lemma same_ncols_pad (x : list matrix) (f : matrix -> list (list float)) :
  same_ncols (map (fun xi => concatenate xi (f xi)) x) = same_ncols x.
Proof.
  destruct x as [|m x]; simpl; [reflexivity|].
  induction x as [|m' x IH]; simpl; [reflexivity|].
  rewrite IH. reflexivity.
Qed.

Lemma filter_notnan_id (l : list float) :
  Forall (fun v => isnan v = false) l ->
  List.filter (fun v => negb (isnan v)) l = l.
Proof.
  induction 1 as [|v l Hv _ IH]; simpl; [reflexivity|].
  rewrite Hv. simpl. rewrite IH. reflexivity.
Qed.

Lemma filter_nan_vec (n : nat) :
  List.filter (fun v => negb (isnan v)) (nan_vec n) = [].
Proof. induction n as [|n IH]; simpl; auto. Qed.

Lemma concat_singletons {A : Type} (l : list A) :
  concat (map (fun v => [v]) l) = l.
Proof. induction l as [|a l IH]; simpl; [|rewrite IH]; reflexivity. Qed.

(** Stripping a padded array of targets whose entries are not NaN gives the
    entries back, subject after subject. *)
Lemma strip_padded (d : nat) (t : list (list float)) :
  Forall (Forall (fun v => isnan v = false)) t ->
  _reshape_tensor_with_nans
    (newaxis (map (fun ti => ti ++ nan_vec (d - length ti)) t)) = concat t.
Proof.
  unfold _reshape_tensor_with_nans, reshape_flat, newaxis.
  induction 1 as [|ti t Hti _ IH]; simpl; [reflexivity|].
  rewrite concat_app, List.filter_app, IH.
  rewrite concat_singletons, List.filter_app, filter_nan_vec, app_nil_r.
  rewrite (filter_notnan_id _ Hti). reflexivity.
Qed.

(** C6: for a non-empty list of per-subject arrays of one feature dimension,
    [_get_padded_features] returns an array whose width [d] is the largest
    length; cutting each subject back to its own length gives the input
    back, and every position from a subject's length on holds a row of
    NaN. *)
Theorem pad_features_round_trip (x : list matrix) :
  x <> [] -> same_ncols x = true ->
  exists d p,
    _get_padded_features x = Ok p /\
    In d (map len x) /\ Forall (fun xi => len xi <= d) x /\
    length p = length x /\
    zip_with (fun xi pi => firstn (len xi) pi) x p = map rows x /\
    forall i xi, x !! i = Some xi ->
      exists pi, p !! i = Some pi /\ length pi = d /\
        firstn (len xi) pi = rows xi /\
        forall j, len xi <= j < d -> pi !! j = Some (repeat nan (ncols xi)).
Proof.
  intros Hne Hsame.
  destruct (py_max_spec (map len x)) as (d & Hd & Hin & Hle).
  { destruct x; [congruence | discriminate]. }
  apply Forall_map in Hle.
  exists d, (map (fun xi => rows xi ++ nan_rows (d - len xi) (ncols xi)) x).
  split; [|split; [exact Hin | split; [exact Hle | split; [|split]]]].
  - unfold _get_padded_features. rewrite Hd. simpl. unfold np_array.
    rewrite same_ncols_pad, Hsame, map_map. reflexivity.
  - apply length_map.
  - clear. induction x as [|xi x IH]; simpl; [reflexivity|].
    rewrite IH. f_equal. apply take_app_length.
  - intros i xi Hi.
    exists (rows xi ++ nan_rows (d - len xi) (ncols xi)).
    assert (Hxi : len xi <= d).
    { rewrite Forall_lookup in Hle. exact (Hle i xi Hi). }
    split; [rewrite lookup_map, Hi; reflexivity | split; [|split]].
    + rewrite length_app. unfold nan_rows. rewrite repeat_length.
      unfold len in *. lia.
    + apply take_app_length.
    + intros j Hj. rewrite lookup_app_r by (unfold len in Hj; lia).
      apply lookup_repeat. unfold len in *. lia.
Qed.

Lemma pad_features_round_trip_witness :
  let x := [Matrix 1 [[Toy.f1_0]; [Toy.f1_2]]; Matrix 1 [[Toy.f1_3]]] in
  (x <> [] /\ same_ncols x = true) /\
  exists d p,
    _get_padded_features x = Ok p /\
    In d (map len x) /\ Forall (fun xi => len xi <= d) x /\
    length p = length x /\
    zip_with (fun xi pi => firstn (len xi) pi) x p = map rows x /\
    forall i xi, x !! i = Some xi ->
      exists pi, p !! i = Some pi /\ length pi = d /\
        firstn (len xi) pi = rows xi /\
        forall j, len xi <= j < d -> pi !! j = Some (repeat nan (ncols xi)).
Proof.
  intros x. split; [split; [discriminate | reflexivity]|].
  apply (pad_features_round_trip x); [discriminate | reflexivity].
Defined.

(** C7, as the code has it: for sequences of lengths 2, 3 and 1 none of
    whose entries is a NaN, unrolling the array that [_get_padded_targets]
    returns gives the six entries, subject after subject; the padding is
    dropped by the exact test [isnan]. *)
Theorem unroll_padded_targets_2_3_1 (t : list (list float)) :
  map length t = [2; 3; 1] ->
  Forall (Forall (fun v => isnan v = false)) t ->
  exists p,
    _get_padded_targets t = Ok p /\
    _reshape_tensor_with_nans p = concat t /\
    length (_reshape_tensor_with_nans p) = 6.
Proof.
  intros Hlen Hnn.
  destruct (py_max_spec (map length t)) as (d & Hd & _).
  { rewrite Hlen. discriminate. }
  unfold _get_padded_targets. rewrite Hd. simpl.
  eexists. split; [reflexivity|].
  rewrite strip_padded by assumption. split; [reflexivity|].
  destruct t as [|a [|b [|c [|? ?]]]]; try discriminate.
  simpl in *. rewrite !length_app. injection Hlen as -> -> ->. reflexivity.
Qed.

Lemma unroll_padded_targets_2_3_1_witness :
  exists p,
    _get_padded_targets
      [[Toy.f1_0; Toy.f1_2]; [Toy.f1_3; Toy.f1_5; Toy.f2_0]; [Toy.f3_0]]
      = Ok p /\
    _reshape_tensor_with_nans p =
      [Toy.f1_0; Toy.f1_2; Toy.f1_3; Toy.f1_5; Toy.f2_0; Toy.f3_0] /\
    length (_reshape_tensor_with_nans p) = 6.
Proof.
  apply (unroll_padded_targets_2_3_1
           [[Toy.f1_0; Toy.f1_2]; [Toy.f1_3; Toy.f1_5; Toy.f2_0]; [Toy.f3_0]]).
  - reflexivity.
  - repeat constructor.
Defined.

(** C7, as the spec has it, fails when an observation is itself a NaN: it
    is dropped with the padding, and five entries come back. *)
Lemma unroll_drops_nan_observation :
  let t := [[nan; Toy.f1_2]; [Toy.f1_3; Toy.f1_5; Toy.f2_0]; [Toy.f3_0]] in
  map length t = [2; 3; 1] /\
  exists p,
    _get_padded_targets t = Ok p /\
    _reshape_tensor_with_nans p =
      [Toy.f1_2; Toy.f1_3; Toy.f1_5; Toy.f2_0; Toy.f3_0] /\
    length (_reshape_tensor_with_nans p) <> 6 /\
    _reshape_tensor_with_nans p <> concat t.
Proof.
  simpl. split; [reflexivity|].
  eexists. split; [reflexivity|]. vm_compute.
  split; [reflexivity | split; [lia | discriminate]].
Qed.

(** C9: on an empty input both padding helpers raise the [ValueError] of
    [max] before any array is built. *)
Theorem padding_empty_input_raises :
  _get_padded_features [] = Raise (ValueError "max() arg is an empty sequence")
  /\
  _get_padded_targets [] = Raise (ValueError "max() arg is an empty sequence").
Proof. split; reflexivity. Qed.

(** ** The store and the optimizers *)

Section Store.

Context {C : Collaborators}.

Lemma deref_Some (h : heap) (l : loc) (m : model) :
  h !! l = Some m -> deref h l = Ok m.
Proof. intros H. unfold deref. rewrite H. reflexivity. Qed.

Lemma descend_pair (k : optimizer_kind) (rate : float) (g : Grad)
    (s : Buffers * model) :
  descend k rate g (fst s, snd s) = descend k rate g s.
Proof. destruct s. reflexivity. Qed.

(** A step changes the object the optimizer is bound to, and nothing else. *)
Lemma step_spec (k : optimizer_kind) (l : loc) (rate : float) (g : Grad)
    (s : Buffers * model) (h : heap) :
  h !! l = Some (snd s) ->
  step (MkOptimizer k l rate (fst s)) g h =
  Ok (MkOptimizer k l rate (fst (descend k rate g s)),
      <[l := snd (descend k rate g s)]> h).
Proof.
  intros H. unfold step. simpl. rewrite (deref_Some _ _ _ H). simpl.
  rewrite descend_pair. reflexivity.
Qed.

(** A new object is not one of the store. *)
Lemma new_object_fresh (h : heap) (l : loc) (m : model) :
  h !! l = Some m -> fresh (dom h) <> l.
Proof.
  intros H E. apply (is_fresh (dom h)). rewrite E.
  apply elem_of_dom. eauto.
Qed.

(** C8: for a learning rate that the constructors of [torch.optim] accept,
    [get_optimizer] returns an optimizer of the declared kind, bound to the
    parameters of the model and with the given learning rate, for the tags
    ['Adam'], ['SGD'] and ['RMSProp']; for any other tag, and whatever the
    rate, it raises a [NotImplementedError] whose message spells the tag
    out.  It touches neither the model nor the store. *)
Theorem get_optimizer_spec (h : heap) (l : loc) (m : model) (rate : float) :
  h !! l = Some m ->
  (optimizer m = "Adam" -> valid_rate rate = true ->
   get_optimizer h l rate = Ok (MkOptimizer Adam l rate (init_buffers Adam)))
  /\
  (optimizer m = "SGD" -> valid_rate rate = true ->
   get_optimizer h l rate = Ok (MkOptimizer SGD l rate (init_buffers SGD)))
  /\
  (optimizer m = "RMSProp" -> valid_rate rate = true ->
   get_optimizer h l rate =
   Ok (MkOptimizer RMSprop l rate (init_buffers RMSprop)))
  /\
  (optimizer m <> "Adam" -> optimizer m <> "SGD" ->
   optimizer m <> "RMSProp" ->
   get_optimizer h l rate =
   Raise (NotImplementedError
            ("Optimizer " +:+ optimizer m +:+ " is not implemented"))).
Proof.
  intros H. unfold get_optimizer. rewrite (deref_Some _ _ _ H). simpl.
  repeat split.
  - intros -> _. reflexivity.
  - intros -> _. reflexivity.
  - intros -> _. reflexivity.
  - intros H1 H2 H3.
    apply String.eqb_neq in H1, H2, H3. rewrite H1, H2, H3. reflexivity.
Qed.

End Store.

Lemma get_optimizer_spec_witness :
  Toy.heap0 "Foo" !! 1%positive = Some (Toy.model0 "Foo") /\
  valid_rate lit_1e_2 = true /\
  @get_optimizer Toy.T (Toy.heap0 "Foo") 1%positive lit_1e_2 =
  Raise (NotImplementedError "Optimizer Foo is not implemented") /\
  @get_optimizer Toy.T (Toy.heap0 "SGD") 1%positive lit_1e_2 =
  Ok (@MkOptimizer Toy.T SGD 1%positive lit_1e_2 0).
Proof.
  split; [reflexivity | split; [reflexivity | split]].
  - apply (@get_optimizer_spec Toy.T (Toy.heap0 "Foo") 1%positive
             (Toy.model0 "Foo") lit_1e_2); [reflexivity | | |]; discriminate.
  - apply (@get_optimizer_spec Toy.T (Toy.heap0 "SGD") 1%positive
             (Toy.model0 "SGD") lit_1e_2); reflexivity.
Defined.

(** ** Pretraining *)

Section Pretraining.

Context {C : Collaborators}.
Variables (d : string) (rate thres : float).
Variables (t e tv ev : list float).
Variable p : loc.

Let traj := premodel_at d rate t e.
Let cost := pre_cost d rate t e tv ev.
Let small := small_change cost thres.
Let opt (k : nat) : Optimizer := MkOptimizer Adam p rate (fst (traj k)).

(** One iteration, when the object at [p] is in the state reached after
    [k] iterations. *)
Lemma pretrain_body_spec (k j pat : nat) (oc : float) (cs : list float)
    (h : heap) :
  h !! p = Some (snd (traj k)) ->
  pretrain_body t e tv ev thres j (PretrainLocals p (opt k) oc pat cs) h =
  Ok (pretrain_decide thres (cost k) (opt (S k))
        (PretrainLocals p (opt k) oc pat cs),
      <[p := snd (traj (S k))]> h).
Proof.
  intros H. unfold pretrain_body. simpl.
  rewrite (deref_Some _ _ _ H). simpl.
  unfold opt at 1. rewrite (step_spec _ _ _ _ (traj k) _ H). simpl.
  rewrite (deref_Some _ p _ (lookup_insert_eq _ _ _)). reflexivity.
Qed.

(** The loop follows [pre_stop] on the stream of validation losses, and
    writes to the object at [p] only. *)
Lemma pretrain_loop_spec (n : nat) :
  forall (i0 pat : nat) (h : heap) (ex : loop_exit) (N pat' : nat),
    h !! p = Some (snd (traj i0)) ->
    pre_stop small i0 n pat = (ex, N, pat') ->
    exists oc',
      for_range (pretrain_body t e tv ev thres) (seq i0 n)
        (PretrainLocals p (opt i0) (previous cost i0) pat
           (map cost (seq 0 i0))) h =
      Ok (ex,
          PretrainLocals p (opt N) oc' pat' (map cost (seq 0 N)),
          <[p := snd (traj N)]> h).
Proof.
  induction n as [|n IH]; intros i0 pat h ex N pat' Hp Hstop.
  - simpl in *. injection Hstop as <- <- <-. exists (previous cost i0).
    rewrite (insert_id _ _ _ Hp). reflexivity.
  - rewrite <- cons_seq. cbn [for_range].
    rewrite (pretrain_body_spec _ _ _ _ _ _ Hp). cbn [rbind].
    unfold pretrain_decide.
    cbn [pre_costs pre_oldcost pre_patience premodel].
    change (lt (abs (sub (cost i0) (previous cost i0))) thres)
      with (small i0).
    rewrite costs_snoc. cbn [pre_stop] in Hstop.
    change (cost i0) with (previous cost (S i0)).
    destruct (small i0).
    + destruct (pat + 1 =? 3).
      * injection Hstop as <- <- <-. eexists. reflexivity.
      * destruct (IH (S i0) (pat + 1) (<[p := snd (traj (S i0))]> h)
                    ex N pat' (lookup_insert_eq _ _ _) Hstop) as [oc' HIH].
        exists oc'. rewrite HIH, insert_insert_eq. reflexivity.
    + destruct (IH (S i0) pat (<[p := snd (traj (S i0))]> h)
                  ex N pat' (lookup_insert_eq _ _ _) Hstop) as [oc' HIH].
      exists oc'. rewrite HIH, insert_insert_eq. reflexivity.
Qed.

(** The whole function: the new object is at the first free location. *)
Lemma pretrain_run_spec (h : heap) (l : loc) (m : model) (n : nat)
    (ex : loop_exit) (N pat' : nat) :
  h !! l = Some m -> dist m = d -> p = fresh (dom h) ->
  pre_stop small 0 n 0 = (ex, N, pat') ->
  exists oc',
    pretrain_dsm_run h l t e tv ev n rate thres =
    Ok (ex, PretrainLocals p (opt N) oc' pat' (map cost (seq 0 N)),
        <[p := snd (traj N)]> h).
Proof.
  intros Hl Hd Hp Hstop. unfold pretrain_dsm_run.
  rewrite (deref_Some _ _ _ Hl). cbn [rbind].
  unfold DeepSurvivalMachinesTorch. rewrite Hd, <- Hp.
  unfold double. rewrite (deref_Some _ p _ (lookup_insert_eq _ _ _)).
  cbn [rbind]. rewrite insert_insert_eq.
  destruct (pretrain_loop_spec n 0 0
              (<[p := snd (premodel_init d)]> h)
              ex N pat' (lookup_insert_eq _ _ _) Hstop) as [oc' H].
  exists oc'. unfold opt, new_optimizer in *. simpl in H. simpl.
  rewrite H, insert_insert_eq. reflexivity.
Qed.

End Pretraining.

(** *** The stopping rule of pretraining *)

Lemma pre_stop_bounds (small : nat -> bool) (n : nat) :
  forall i0 pat ex N pat',
    pre_stop small i0 n pat = (ex, N, pat') ->
    i0 <= N <= i0 + n /\
    (ex = Exhausted /\ N = i0 + n \/ ex = Broke /\ pat' = 3 /\ i0 < N).
Proof.
  induction n as [|n IH]; intros i0 pat ex N pat' H; simpl in H.
  - injection H as <- <- <-. split; [lia | left; split; [reflexivity | lia]].
  - destruct (small i0).
    + destruct (pat + 1 =? 3) eqn:E.
      * injection H as <- <- <-. apply Nat.eqb_eq in E.
        split; [lia | right; repeat split; lia].
      * apply IH in H. destruct H as [H1 [[-> ->] | (-> & -> & H2)]];
          (split; [lia|]); [left | right]; repeat split; lia.
    + apply IH in H. destruct H as [H1 [[-> ->] | (-> & -> & H2)]];
        (split; [lia|]); [left | right]; repeat split; lia.
Qed.

(** Three iterations in a row with a small change end the loop, at the
    latest with the third of them. *)
Lemma pre_stop_consecutive (small : nat -> bool) (n : nat) :
  forall i0 pat ex N pat' k,
    pre_stop small i0 n pat = (ex, N, pat') ->
    pat <= 2 -> i0 <= k + 2 -> k + 2 < i0 + n -> i0 - k <= pat ->
    (forall j, i0 <= j -> k <= j -> j <= k + 2 -> small j = true) ->
    N <= k + 3 /\ ex = Broke.
Proof.
  induction n as [|n IH]; intros i0 pat ex N pat' k H Hpat Hk1 Hk2 Hk3 Hs;
    simpl in H; [lia|].
  destruct (small i0) eqn:Es.
  - destruct (pat + 1 =? 3) eqn:E.
    + injection H as <- <- <-. split; [lia | reflexivity].
    + apply Nat.eqb_neq in E.
      apply (IH _ _ _ _ _ k H); try lia.
      intros j Hj1 Hj2 Hj3. apply Hs; lia.
  - assert (i0 < k).
    { destruct (Nat.lt_ge_cases i0 k) as [Hlt | Hge]; [exact Hlt|].
      rewrite Hs in Es by lia. discriminate. }
    apply (IH _ _ _ _ _ k H); try lia.
    intros j Hj1 Hj2 Hj3. apply Hs; lia.
Qed.

(** With no small change at the first iteration and one at each later
    iteration, the loop runs four iterations. *)
Lemma pre_stop_constant (small : nat -> bool) (n : nat) :
  small 0 = false -> (forall k, small (S k) = true) -> 4 <= n ->
  pre_stop small 0 n 0 = (Broke, 4, 3).
Proof.
  intros H0 HS Hn.
  destruct n as [|[|[|[|n]]]]; try lia.
  simpl. rewrite H0, !HS. reflexivity.
Qed.

(** *** Changes of a constant loss *)

Lemma sub_diag_finite (c : float) :
  is_finite c = true -> abs (sub c c) = S754_zero false.
Proof.
  destruct c as [s|s| |s m ex]; try discriminate; intros _.
  - destruct s; reflexivity.
  - unfold sub, SFsub. rewrite Z.sub_diag. reflexivity.
Qed.

Lemma sub_inf_finite (c thres : float) :
  is_finite c = true -> lt (abs (sub c inf)) thres = false.
Proof.
  destruct c as [s|s| |s m ex]; try discriminate; intros _;
    destruct thres as [s'|[|]| |s' m' ex']; reflexivity.
Qed.

Lemma small_change_constant (cost : nat -> float) (c thres : float) :
  is_finite c = true -> (forall k, cost k = c) ->
  small_change cost thres 0 = false /\
  forall k, small_change cost thres (S k) = is_pos thres.
Proof.
  intros Hc Hcost. unfold small_change. split.
  - simpl. rewrite Hcost. apply sub_inf_finite, Hc.
  - intros k. simpl. rewrite !Hcost, sub_diag_finite by exact Hc.
    reflexivity.
Qed.

Section PretrainingClaims.

Context {C : Collaborators}.

(** C3, as the code has it: the loop of [pretrain_dsm] records one
    validation loss per iteration and runs at most [n] iterations; it has
    stopped at the latest with the third of any three iterations in a row
    whose change is below the threshold; and when the validation loss is a
    constant finite value and the threshold is positive it stops after
    exactly four iterations, the first of which is compared with
    [float('inf')] and does not count. *)
Theorem pretrain_stops (h : heap) (l : loc) (m : model)
    (t e tv ev : list float) (n : nat) (rate thres : float) :
  h !! l = Some m ->
  let cost := pre_cost (dist m) rate t e tv ev in
  exists ex fr h',
    pretrain_dsm_run h l t e tv ev n rate thres = Ok (ex, fr, h') /\
    pre_costs fr = map cost (seq 0 (length (pre_costs fr))) /\
    length (pre_costs fr) <= n /\
    (forall k, k + 2 < n ->
       small_change cost thres k = true ->
       small_change cost thres (k + 1) = true ->
       small_change cost thres (k + 2) = true ->
       length (pre_costs fr) <= k + 3 /\ ex = Broke) /\
    ((exists c, is_finite c = true /\ forall k, cost k = c) ->
     is_pos thres = true -> 4 <= n ->
     length (pre_costs fr) = 4 /\ ex = Broke).
Proof.
  intros Hl cost.
  destruct (pre_stop (small_change cost thres) 0 n 0) as [[ex N] pat'] eqn:Hs.
  destruct (pretrain_run_spec (dist m) rate thres t e tv ev (fresh (dom h))
              h l m n ex N pat' Hl eq_refl eq_refl Hs) as [oc' Hrun].
  eexists _, _, _. split; [exact Hrun|]. cbn [pre_costs].
  rewrite length_map, length_seq.
  destruct (pre_stop_bounds _ _ _ _ _ _ _ Hs) as [HN _].
  split; [reflexivity | split; [lia | split]].
  - intros k Hk H0 H1 H2.
    apply (pre_stop_consecutive _ _ _ _ _ _ _ k Hs); try lia.
    intros j _ Hj1 Hj2.
    assert (Hj : j = k \/ j = k + 1 \/ j = k + 2) by lia.
    destruct Hj as [-> | [-> | ->]]; assumption.
  - intros (c & Hc & Hcost) Hth Hn.
    destruct (small_change_constant cost c thres Hc Hcost) as [H0 HS].
    rewrite pre_stop_constant in Hs; [| exact H0 | | exact Hn].
    + injection Hs as <- <- <-. split; reflexivity.
    + intros k. rewrite HS. exact Hth.
Qed.

End PretrainingClaims.

Lemma pretrain_stops_witness :
  Toy.heap0 "Adam" !! 1%positive = Some (Toy.model0 "Adam") /\
  exists ex fr h',
    @pretrain_dsm_run Toy.T (Toy.heap0 "Adam") 1%positive
      [Toy.f2_0] [Toy.f1_0] [Toy.f3_0] [Toy.f1_0] (100 * 100)
      lit_1e_2 lit_1e_4 = Ok (ex, fr, h') /\
    length (pre_costs fr) = 4 /\ ex = Broke.
Proof.
  split; [reflexivity|].
  destruct (@pretrain_stops Toy.T (Toy.heap0 "Adam") 1%positive
              (Toy.model0 "Adam") [Toy.f2_0] [Toy.f1_0] [Toy.f3_0] [Toy.f1_0]
              (100 * 100) lit_1e_2 lit_1e_4 eq_refl)
    as (ex & fr & h' & Hrun & _ & _ & _ & Hconst).
  exists ex, fr, h'. split; [exact Hrun|].
  apply Hconst.
  - exists Toy.f1_0. split; reflexivity.
  - reflexivity.
  - apply Nat.leb_le. vm_compute. reflexivity.
Defined.

(** C3, as the spec has it, fails: with a validation loss that is the same
    at every iteration the loop runs four iterations, not three. *)
Lemma pretrain_constant_loss_four_iterations :
  exists fr h',
    @pretrain_dsm_run Toy.T (Toy.heap0 "Adam") 1%positive
      [Toy.f2_0] [Toy.f1_0] [Toy.f3_0] [Toy.f1_0] (100 * 100)
      lit_1e_2 lit_1e_4 = Ok (Broke, fr, h') /\
    pre_costs fr = [Toy.f1_0; Toy.f1_0; Toy.f1_0; Toy.f1_0] /\
    length (pre_costs fr) <> 3.
Proof.
  eexists _, _. split; [vm_compute; reflexivity|].
  split; [reflexivity | discriminate].
Qed.

(** ** The order of the floats and [np.argmax] *)

Lemma le_key (a b : float) :
  isnan a = false -> isnan b = false ->
  (le a b = true <-> key_le (key a) (key b)).
Proof.
  unfold le, SFleb, SFcompare, key_le.
  destruct a as [sa|sa| |sa ma ea]; try discriminate;
    destruct b as [sb|sb| |sb mb eb]; try discriminate; intros _ _;
    try (destruct sa); try (destruct sb); simpl;
    try (split; [intros _; lia | reflexivity]);
    try (split; [discriminate | lia]).
  - change (Pos.compare_cont Eq ma mb) with (Pos.compare ma mb).
    destruct (Z.compare_spec ea eb); destruct (Pos.compare_spec ma mb);
      simpl; split; intros H'; try reflexivity; try discriminate; lia.
  - change (Pos.compare_cont Eq ma mb) with (Pos.compare ma mb).
    destruct (Z.compare_spec ea eb); destruct (Pos.compare_spec ma mb);
      simpl; split; intros H'; try reflexivity; try discriminate; lia.
Qed.

Lemma le_refl (a : float) : isnan a = false -> le a a = true.
Proof. intros H. apply le_key; [assumption..|]. unfold key_le. lia. Qed.

(** Below the current largest value and that value strictly below a new
    one: below the new one. *)
Lemma le_below_new (x mp c : float) :
  isnan x = false -> isnan mp = false -> isnan c = false ->
  le x mp = true -> le c mp = false -> le x c = true.
Proof.
  intros Hx Hmp Hc H1 H2.
  apply le_key in H1; [|assumption..].
  apply le_key; [assumption..|].
  assert (H3 : ~ key_le (key c) (key mp)).
  { intros H. apply le_key in H; [|assumption..]. congruence. }
  unfold key_le in *. lia.
Qed.

Lemma le_not_nan (a b : float) :
  le a b = true -> isnan a = false /\ isnan b = false.
Proof.
  destruct a as [?|?| |? ? ?]; destruct b as [?|?| |? ? ?];
    try discriminate; auto.
Qed.

(** The scan keeps the index of a largest entry of what it has seen, until
    it meets a NaN. *)
Lemma argmax_scan_max (ip : list float) :
  forall (seen : list float) (mp : float) (max_ind : nat),
    seen !! max_ind = Some mp ->
    isnan mp = false ->
    Forall (fun c => le c mp = true) seen ->
    exists cm,
      (seen ++ ip) !! argmax_scan mp max_ind (length seen) ip = Some cm /\
      (isnan cm = true \/ Forall (fun c => le c cm = true) (seen ++ ip)).
Proof.
  induction ip as [|c ip IH]; intros seen mp max_ind Hmp Hmpn Hle.
  - exists mp. rewrite app_nil_r. simpl. auto.
  - simpl. destruct (le c mp) eqn:E; simpl.
    + replace (seen ++ c :: ip) with ((seen ++ [c]) ++ ip)
        by (rewrite <- app_assoc; reflexivity).
      replace (S (length seen)) with (length (seen ++ [c]))
        by (rewrite length_app; simpl; lia).
      apply IH; [apply lookup_app_l_Some; exact Hmp | exact Hmpn |].
      apply Forall_app. split; [assumption | repeat constructor; assumption].
    + destruct (isnan c) eqn:Hc.
      * exists c. split; [|left; exact Hc].
        rewrite lookup_app_r by lia. rewrite Nat.sub_diag. reflexivity.
      * replace (seen ++ c :: ip) with ((seen ++ [c]) ++ ip)
          by (rewrite <- app_assoc; reflexivity).
        replace (S (length seen)) with (length (seen ++ [c]))
          by (rewrite length_app; simpl; lia).
        apply IH; [| exact Hc |].
        -- rewrite lookup_app_r by lia. rewrite Nat.sub_diag. reflexivity.
        -- apply Forall_app. split.
           ++ rewrite Forall_lookup in Hle. apply Forall_lookup.
              intros j x Hj. pose proof (Hle j x Hj) as Hx.
              destruct (le_not_nan _ _ Hx) as [Hxn _].
              apply (le_below_new x mp c); assumption.
           ++ repeat constructor. apply le_refl, Hc.
Qed.

(** [np.argmax] of a non-empty list is an index of it; the entry there is a
    NaN or is at least every entry. *)
Lemma np_argmax_spec (a : list float) :
  a <> [] ->
  exists m cm,
    np_argmax a = Ok m /\ a !! m = Some cm /\
    (isnan cm = true \/ Forall (fun c => le c cm = true) a).
Proof.
  destruct a as [|c a]; [congruence | intros _]. simpl.
  destruct (isnan c) eqn:Hc.
  - exists 0, c. auto.
  - destruct (argmax_scan_max a [c] c 0 eq_refl Hc) as (cm & Hcm & Hmax).
    { repeat constructor. apply le_refl, Hc. }
    exists (argmax_scan c 0 1 a), cm. auto.
Qed.

(** ** Training *)

Section Training.

Context {C : Collaborators}.
Variables (l : loc) (a : train_args) (nb : Z) (s0 : Buffers * model).

Let traj := model_after a nb s0.
Let cost := epoch_cost a nb s0.
Let snap := epoch_snapshot a nb s0.
Let opt (k : nat) : Optimizer :=
  MkOptimizer Adam l (learning_rate a) (fst (traj k)).
Let slices (j : nat) : tensor3 * tensor3 * tensor3 :=
  (batch_slice (x_train a) (bs a) j,
   batch_slice (t_train a) (bs a) j,
   batch_slice (e_train a) (bs a) j).

(** The loop over the batches takes one step per batch, on the object at
    [l]. *)
Lemma batches_loop_spec (js : list nat) :
  forall (s : Buffers * model) (h : heap),
    h !! l = Some (snd s) ->
    for_range (train_batch l a) js
      (MkOptimizer Adam l (learning_rate a) (fst s)) h =
    Ok (Exhausted,
        MkOptimizer Adam l (learning_rate a)
          (fst (fold_left (batch_descend a) (map slices js) s)),
        <[l := snd (fold_left (batch_descend a) (map slices js) s)]> h).
Proof.
  induction js as [|j js IH]; intros s h Hl.
  - simpl. rewrite (insert_id _ _ _ Hl). reflexivity.
  - cbn [for_range map fold_left]. unfold train_batch at 1.
    rewrite (deref_Some _ _ _ Hl). cbn [rbind].
    rewrite (step_spec _ _ _ _ s _ Hl). cbn [rbind fst snd].
    change (descend Adam (learning_rate a)
              (conditional_grad (snd s) (batch_slice (x_train a) (bs a) j)
                 (_reshape_tensor_with_nans (batch_slice (t_train a) (bs a) j))
                 (_reshape_tensor_with_nans (batch_slice (e_train a) (bs a) j))
                 (elbo a)) s)
      with (batch_descend a s (slices j)).
    rewrite (IH (batch_descend a s (slices j)) _ (lookup_insert_eq _ _ _)).
    rewrite insert_insert_eq. reflexivity.
Qed.

(** One epoch, when the object at [l] is in the state reached after [k]
    epochs. *)
Lemma train_epoch_spec (k i pat ip : nat) (oc : float)
    (dics : list (state_dict Weights)) (cs : list float) (h : heap) :
  h !! l = Some (snd (traj k)) ->
  train_epoch l a nb (_reshape_tensor_with_nans (t_valid a))
    (_reshape_tensor_with_nans (e_valid a)) i
    (TrainLocals (opt k) pat oc (Some dics) cs ip) h =
  if ge (cost k) oc then
    if pat =? 2 then
      let! maxm := np_argmax (cs ++ [cost k]) in
      let! sd := index (dics ++ [snap k]) maxm in
      Ok (Return (TrainLocals (opt (S k)) pat oc None (cs ++ [cost k]) i),
          <[l := load_state_dict (snd (traj (S k))) sd]> h)
    else
      Ok (Next (TrainLocals (opt (S k)) (pat + 1) (cost k)
                  (Some (dics ++ [snap k])) (cs ++ [cost k]) i),
          <[l := snd (traj (S k))]> h)
  else
    Ok (Next (TrainLocals (opt (S k)) 0 (cost k)
                (Some (dics ++ [snap k])) (cs ++ [cost k]) i),
        <[l := snd (traj (S k))]> h).
Proof.
  intros Hl. unfold train_epoch. cbn [tr_optimizer]. unfold opt at 1.
  rewrite (batches_loop_spec _ (traj k) h Hl). cbn [rbind].
  change (fold_left (batch_descend a) (map slices (seq 0 (Z.to_nat nb)))
            (traj k)) with (traj (S k)).
  rewrite (deref_Some _ l _ (lookup_insert_eq _ _ _)). cbn [rbind].
  change (conditional_loss (snd (traj (S k))) (x_valid a)
            (_reshape_tensor_with_nans (t_valid a))
            (_reshape_tensor_with_nans (e_valid a)) false) with (cost k).
  change (params (snd (traj (S k)))) with (snap k).
  cbn [get_dics tr_dics rbind tr_oldcost tr_patience tr_costs].
  destruct (ge (cost k) oc); [|reflexivity].
  destruct (pat =? 2); [|reflexivity].
  destruct (np_argmax (cs ++ [cost k])) as [maxm|]; [|reflexivity].
  cbn [rbind]. destruct (index (dics ++ [snap k]) maxm); [|reflexivity].
  cbn [rbind]. rewrite insert_insert_eq. reflexivity.
Qed.

Lemma index_snapshots (n m : nat) :
  m < n -> index (map snap (seq 0 n)) m = Ok (snap m).
Proof.
  intros H. unfold index. rewrite lookup_map, lookup_seq_lt by lia.
  reflexivity.
Qed.

(** The loop over the epochs follows [train_stop] on the stream of
    validation costs. *)
Lemma train_loop_spec (n : nat) :
  forall (i0 pat ip : nat) (oc : float) (h : heap),
    h !! l = Some (snd (traj i0)) ->
    match train_stop cost i0 n pat oc with
    | Some i =>
        i0 <= i < i0 + n /\
        exists maxm oc',
          np_argmax (map cost (seq 0 (S i))) = Ok maxm /\ maxm <= i /\
          for_range
            (train_epoch l a nb (_reshape_tensor_with_nans (t_valid a))
               (_reshape_tensor_with_nans (e_valid a)))
            (seq i0 n)
            (TrainLocals (opt i0) pat oc (Some (map snap (seq 0 i0)))
               (map cost (seq 0 i0)) ip) h =
          Ok (Returned,
              TrainLocals (opt (S i)) 2 oc' None (map cost (seq 0 (S i))) i,
              <[l := load_state_dict (snd (traj (S i))) (snap maxm)]> h)
    | None =>
        exists pat' oc',
          for_range
            (train_epoch l a nb (_reshape_tensor_with_nans (t_valid a))
               (_reshape_tensor_with_nans (e_valid a)))
            (seq i0 n)
            (TrainLocals (opt i0) pat oc (Some (map snap (seq 0 i0)))
               (map cost (seq 0 i0)) ip) h =
          Ok (Exhausted,
              TrainLocals (opt (i0 + n)) pat' oc'
                (Some (map snap (seq 0 (i0 + n))))
                (map cost (seq 0 (i0 + n)))
                (match n with 0 => ip | S n' => i0 + n' end),
              <[l := snd (traj (i0 + n))]> h)
    end.
Proof.
  induction n as [|n IH]; intros i0 pat ip oc h Hl.
  - simpl. exists pat, oc. rewrite Nat.add_0_r, (insert_id _ _ _ Hl).
    reflexivity.
  - rewrite <- cons_seq. cbn [for_range train_stop].
    rewrite (train_epoch_spec _ _ _ _ _ _ _ _ Hl).
    rewrite !costs_snoc.
    destruct (ge (cost i0) oc).
    + destruct (pat =? 2) eqn:E.
      * apply Nat.eqb_eq in E. subst pat. split; [lia|].
        destruct (np_argmax_spec (map cost (seq 0 (S i0))))
          as (maxm & cm & Hm & Hcm & _).
        { rewrite <- cons_seq. discriminate. }
        apply lookup_lt_Some in Hcm.
        rewrite length_map, length_seq in Hcm.
        exists maxm, oc. split; [exact Hm | split; [lia|]].
        rewrite Hm. cbn [rbind]. rewrite index_snapshots by lia.
        reflexivity.
      * cbn [rbind].
        specialize (IH (S i0) (pat + 1) i0 (cost i0)
                      (<[l := snd (traj (S i0))]> h) (lookup_insert_eq _ _ _)).
        destruct (train_stop cost (S i0) n (pat + 1) (cost i0)) as [i|].
        -- destruct IH as (Hi & maxm & oc' & Hm & Hle & Hrun).
           split; [lia|]. exists maxm, oc'. split; [exact Hm|].
           split; [exact Hle|]. rewrite Hrun, insert_insert_eq. reflexivity.
        -- destruct IH as (pat' & oc' & Hrun). exists pat', oc'.
           rewrite Hrun, insert_insert_eq.
           replace (match n with 0 => i0 | S n' => S i0 + n' end)
             with (i0 + n) by (destruct n; lia).
           replace (S i0 + n) with (i0 + S n) by lia. reflexivity.
    + cbn [rbind].
      specialize (IH (S i0) 0 i0 (cost i0)
                    (<[l := snd (traj (S i0))]> h) (lookup_insert_eq _ _ _)).
      destruct (train_stop cost (S i0) n 0 (cost i0)) as [i|].
      * destruct IH as (Hi & maxm & oc' & Hm & Hle & Hrun).
        split; [lia|]. exists maxm, oc'. split; [exact Hm|].
        split; [exact Hle|]. rewrite Hrun, insert_insert_eq. reflexivity.
      * destruct IH as (pat' & oc' & Hrun). exists pat', oc'.
        rewrite Hrun, insert_insert_eq.
        replace (match n with 0 => i0 | S n' => S i0 + n' end)
          with (i0 + n) by (destruct n; lia).
        replace (S i0 + n) with (i0 + S n) by lia. reflexivity.
Qed.

End Training.

(** ** The setup of [train_dsm] *)

Section Setup.

Context {C : Collaborators}.

(** [pretrain_dsm] returns: the new object is at the first free location and
    holds the premodel after as many iterations as the stopping rule
    allows. *)
Lemma pretrain_dsm_spec (h : heap) (l : loc) (m : model)
    (t e tv ev : list float) (n : nat) (rate thres : float) :
  h !! l = Some m ->
  exists N,
    N = (pre_stop (small_change (pre_cost (dist m) rate t e tv ev) thres)
           0 n 0).1.2 /\
    N <= n /\
    pretrain_dsm h l t e tv ev n rate thres =
    Ok (fresh (dom h),
        <[fresh (dom h) := snd (premodel_at (dist m) rate t e N)]> h).
Proof.
  intros Hl.
  destruct (pre_stop (small_change (pre_cost (dist m) rate t e tv ev) thres)
              0 n 0) as [[ex N] pat'] eqn:Hs.
  destruct (pretrain_run_spec (dist m) rate thres t e tv ev (fresh (dom h))
              h l m n ex N pat' Hl eq_refl eq_refl Hs) as [oc' Hrun].
  exists N. split; [reflexivity | split].
  - destruct (pre_stop_bounds _ _ _ _ _ _ _ Hs) as [HN _]. lia.
  - unfold pretrain_dsm. rewrite Hrun. reflexivity.
Qed.

(** The model after the copy of [shape] and [scale] and the conversion. *)
Lemma train_setup_spec (h : heap) (l : loc) (m : model) (a : train_args) :
  h !! l = Some m -> bs a <> 0%Z ->
  exists p h1 pm,
    pretrain_dsm h l
      (_reshape_tensor_with_nans (t_train a))
      (_reshape_tensor_with_nans (e_train a))
      (_reshape_tensor_with_nans (t_valid a))
      (_reshape_tensor_with_nans (e_valid a))
      (100 * 100) lit_1e_2 lit_1e_4 = Ok (p, h1) /\
    p <> l /\ h1 !! p = Some pm /\ h1 !! l = Some m /\
    train_setup h l a =
    Ok (TrainLocals (new_optimizer Adam l (learning_rate a)) 0 inf (Some [])
          [] 0,
        (Z.quot (Z.of_nat (length (x_train a))) (bs a) + 1)%Z,
        <[l := to_double (fill_scale (scale (params pm))
                            (fill_shape (shape (params pm)) m))]> h1).
Proof.
  intros Hl Hbs.
  destruct (pretrain_dsm_spec h l m
              (_reshape_tensor_with_nans (t_train a))
              (_reshape_tensor_with_nans (e_train a))
              (_reshape_tensor_with_nans (t_valid a))
              (_reshape_tensor_with_nans (e_valid a))
              (100 * 100) lit_1e_2 lit_1e_4 Hl) as (N & _ & _ & Hpre).
  pose proof (new_object_fresh h l m Hl) as Hfresh.
  eexists _, _, _. split; [exact Hpre|].
  split; [exact Hfresh | split; [apply lookup_insert_eq | split]].
  - rewrite lookup_insert_ne by exact Hfresh. exact Hl.
  - unfold train_setup. rewrite Hpre. cbn [rbind].
    rewrite (deref_Some _ _ _ (lookup_insert_eq _ _ _)). cbn [rbind].
    assert (H1 : (<[fresh (dom h) :=
                     snd (premodel_at (dist m) lit_1e_2
                            (_reshape_tensor_with_nans (t_train a))
                            (_reshape_tensor_with_nans (e_train a)) N)]> h)
                 !! l = Some m)
      by (rewrite lookup_insert_ne by exact Hfresh; exact Hl).
    rewrite (deref_Some _ _ _ H1). cbn [rbind].
    rewrite (deref_Some _ l _ (lookup_insert_eq _ _ _)). cbn [rbind].
    unfold double.
    rewrite (deref_Some _ l _ (lookup_insert_eq _ _ _)). cbn [rbind].
    unfold count_batches.
    destruct (Z.eqb_spec (bs a) 0) as [E | _]; [contradiction|].
    cbn [rbind]. rewrite !insert_insert_eq. reflexivity.
Qed.

(** Whatever the model declares, a call that gets through the setup has
    built an [Adam] optimizer and counted the batches. *)
Lemma train_setup_inv (h : heap) (l : loc) (a : train_args)
    (fr0 : train_locals) (nb : Z) (h0 : heap) :
  train_setup h l a = Ok (fr0, nb, h0) ->
  fr0 = TrainLocals (new_optimizer Adam l (learning_rate a)) 0 inf (Some [])
          [] 0 /\
  count_batches (length (x_train a)) (bs a) = Ok nb.
Proof.
  unfold train_setup.
  destruct (pretrain_dsm _ _ _ _ _ _ _ _ _) as [[p h1]|]; [|discriminate].
  cbn [rbind].
  destruct (deref h1 p); [|discriminate]. cbn [rbind].
  destruct (deref h1 l); [|discriminate]. cbn [rbind].
  destruct (deref _ l); [|discriminate]. cbn [rbind].
  destruct (double _ _); [|discriminate]. cbn [rbind].
  destruct (count_batches _ _); [|discriminate]. cbn [rbind].
  intros H. injection H as <- <- <-. split; reflexivity.
Qed.

End Setup.

(** ** Early stopping of [train_dsm] *)

Section TrainingClaims.

Context {C : Collaborators}.

(** The loop of [train_dsm] after a setup that left the model [m0] at [l]. *)
Lemma train_run_loop (h : heap) (l : loc) (a : train_args)
    (fr0 : train_locals) (nb : Z) (h0 : heap) (m0 : model) :
  train_setup h l a = Ok (fr0, nb, h0) ->
  train_dsm_run h l a =
  for_range
    (train_epoch l a nb (_reshape_tensor_with_nans (t_valid a))
       (_reshape_tensor_with_nans (e_valid a)))
    (seq 0 (n_iter a))
    (TrainLocals
       (MkOptimizer Adam l (learning_rate a)
          (fst (model_after a nb (init_buffers Adam, m0) 0)))
       0 inf
       (Some (map (epoch_snapshot a nb (init_buffers Adam, m0)) (seq 0 0)))
       (map (epoch_cost a nb (init_buffers Adam, m0)) (seq 0 0)) 0) h0.
Proof.
  intros Hsetup. unfold train_dsm_run. rewrite Hsetup. cbn [rbind].
  destruct (train_setup_inv _ _ _ _ _ _ Hsetup) as [-> _]. reflexivity.
Qed.

(** C1, as the code has it: when the first validation cost is below
    [float('inf')] and each of the next three is at least the one before
    (1.0, 1.2, 1.3, 1.5, ...), a call that allows four epochs or more
    returns from the epoch of index 3: the first epoch never counts as
    non-improving, and the third non-improving epoch is the fourth epoch. *)
Theorem early_stop_at_epoch_3 (h : heap) (l : loc) (a : train_args)
    (fr0 : train_locals) (nb : Z) (h0 : heap) (m0 : model) :
  train_setup h l a = Ok (fr0, nb, h0) ->
  h0 !! l = Some m0 ->
  let cost := epoch_cost a nb (init_buffers Adam, m0) in
  ge (cost 0) inf = false ->
  ge (cost 1) (cost 0) = true ->
  ge (cost 2) (cost 1) = true ->
  ge (cost 3) (cost 2) = true ->
  4 <= n_iter a ->
  exists fr h',
    train_dsm_run h l a = Ok (Returned, fr, h') /\
    tr_i fr = 3 /\
    train_dsm h l a = Ok (l, 3, h').
Proof.
  intros Hsetup Hl0 cost H0 H1 H2 H3 Hn.
  pose proof (train_loop_spec l a nb (init_buffers Adam, m0) (n_iter a)
                0 0 0 inf h0 Hl0) as H.
  assert (Hstop : train_stop cost 0 (n_iter a) 0 inf = Some 3).
  { destruct (n_iter a) as [|[|[|[|n]]]]; try lia.
    cbn [train_stop]. rewrite H0, H1, H2, H3. reflexivity. }
  cbv beta zeta in H.
  rewrite <- (train_run_loop h l a fr0 nb h0 m0 Hsetup) in H.
  fold cost in H. rewrite Hstop in H.
  destruct H as (_ & maxm & oc' & _ & _ & Hrun).
  eexists _, _. split; [exact Hrun|]. split; [reflexivity|].
  unfold train_dsm. rewrite Hrun. reflexivity.
Qed.

(** C2: a call of [train_dsm] that returns from inside the loop, at epoch
    [i], does so with patience 2 and the costs of the epochs 0 to [i] on
    record; it loads into the model the snapshot of the epoch [np.argmax]
    picks among them, whose cost is at least every recorded cost (or is a
    NaN, which numpy takes for the largest); the list of snapshots is
    deleted, and the model (the object it was given) is returned with
    [i]. *)
Theorem early_stop_restores_argmax (h : heap) (l : loc) (a : train_args)
    (fr0 : train_locals) (nb : Z) (h0 : heap) (m0 : model)
    (fr : train_locals) (h' : heap) :
  train_setup h l a = Ok (fr0, nb, h0) ->
  h0 !! l = Some m0 ->
  train_dsm_run h l a = Ok (Returned, fr, h') ->
  let s0 := (init_buffers Adam, m0) in
  let cost := epoch_cost a nb s0 in
  let i := tr_i fr in
  i < n_iter a /\
  tr_patience fr = 2 /\
  tr_costs fr = map cost (seq 0 (S i)) /\
  exists maxm,
    np_argmax (tr_costs fr) = Ok maxm /\ maxm <= i /\
    (isnan (cost maxm) = true \/
     forall k, k <= i -> le (cost k) (cost maxm) = true) /\
    h' !! l =
      Some (load_state_dict (snd (model_after a nb s0 (S i)))
              (epoch_snapshot a nb s0 maxm)) /\
    tr_dics fr = None /\
    train_dsm h l a = Ok (l, i, h').
Proof.
  intros Hsetup Hl0 Hres s0 cost i.
  pose proof (train_loop_spec l a nb (init_buffers Adam, m0) (n_iter a)
                0 0 0 inf h0 Hl0) as H.
  cbv beta zeta in H.
  rewrite <- (train_run_loop h l a fr0 nb h0 m0 Hsetup) in H.
  fold s0 in H. fold cost in H.
  destruct (train_stop cost 0 (n_iter a) 0 inf) as [i'|].
  - destruct H as (Hi & maxm & oc' & Hm & Hle & Hrun).
    rewrite Hrun in Hres. injection Hres as <- <-.
    subst i. cbn [tr_i tr_patience tr_costs tr_dics].
    split; [lia | split; [reflexivity | split; [reflexivity|]]].
    exists maxm. split; [exact Hm | split; [exact Hle|]].
    split; [|split; [|split]].
    + destruct (np_argmax_spec (map cost (seq 0 (S i'))))
        as (m' & cm & Hm' & Hcm & Hmax).
      { rewrite <- cons_seq. discriminate. }
      rewrite Hm in Hm'. injection Hm' as <-.
      rewrite lookup_map, lookup_seq_lt in Hcm by lia.
      simpl in Hcm. injection Hcm as <-.
      destruct Hmax as [Hnan | Hall]; [left; exact Hnan | right].
      intros k Hk. rewrite Forall_lookup in Hall. apply (Hall k).
      rewrite lookup_map, lookup_seq_lt by lia. reflexivity.
    + apply lookup_insert_eq.
    + reflexivity.
    + unfold train_dsm. rewrite Hrun. reflexivity.
  - destruct H as (pat' & oc' & Hrun). rewrite Hrun in Hres. discriminate.
Qed.

End TrainingClaims.

Lemma early_stop_at_epoch_3_witness :
  exists fr h',
    @train_dsm_run Toy.T (Toy.heap0 "Adam") 1%positive Toy.args0 =
      Ok (Returned, fr, h') /\
    tr_i fr = 3 /\
    @train_dsm Toy.T (Toy.heap0 "Adam") 1%positive Toy.args0 =
      Ok (1%positive, 3, h').
Proof.
  eapply (@early_stop_at_epoch_3 Toy.T (Toy.heap0 "Adam") 1%positive
            Toy.args0).
  - vm_compute. reflexivity.
  - vm_compute. reflexivity.
  - vm_compute. reflexivity.
  - vm_compute. reflexivity.
  - vm_compute. reflexivity.
  - vm_compute. reflexivity.
  - simpl. lia.
Defined.

(** C1, as the spec has it, fails: with the validation costs 1.0, 1.2, 1.3,
    1.5, ... of its example the call returns from the epoch of index 3, not
    2. *)
Lemma rising_costs_stop_at_epoch_3 :
  exists fr h',
    @train_dsm_run Toy.T (Toy.heap0 "Adam") 1%positive Toy.args0 =
      Ok (Returned, fr, h') /\
    tr_costs fr = [Toy.f1_0; Toy.f1_2; Toy.f1_3; Toy.f1_5] /\
    tr_i fr = 3 /\ tr_i fr <> 2 /\
    @train_dsm Toy.T (Toy.heap0 "Adam") 1%positive Toy.args0 =
      Ok (1%positive, 3, h').
Proof.
  eexists _, _. split; [vm_compute; reflexivity|].
  split; [reflexivity | split; [reflexivity | split; [discriminate|]]].
  vm_compute. reflexivity.
Qed.

Lemma early_stop_restores_argmax_witness :
  exists fr0 nb h0 m0 fr h',
    @train_setup Toy.T (Toy.heap0 "Adam") 1%positive Toy.args0 =
      Ok (fr0, nb, h0) /\
    h0 !! 1%positive = Some m0 /\
    @train_dsm_run Toy.T (Toy.heap0 "Adam") 1%positive Toy.args0 =
      Ok (Returned, fr, h') /\
    tr_patience fr = 2 /\
    np_argmax (tr_costs fr) = Ok 3 /\
    (weights <$> (params <$> h' !! 1%positive)) = Some 4 /\
    tr_dics fr = None /\
    @train_dsm Toy.T (Toy.heap0 "Adam") 1%positive Toy.args0 =
      Ok (1%positive, 3, h').
Proof.
  eexists _, _, _, _, _, _.
  split; [vm_compute; reflexivity|].
  split; [vm_compute; reflexivity|].
  split; [vm_compute; reflexivity|].
  edestruct (@early_stop_restores_argmax Toy.T (Toy.heap0 "Adam") 1%positive
               Toy.args0)
    as (_ & Hp & _ & maxm & Hm & _ & _ & Hl & Hd & Hr);
    [vm_compute; reflexivity ..|].
  split; [exact Hp|]. split; [reflexivity|].
  split; [vm_compute; reflexivity|].
  split; [exact Hd | exact Hr].
Defined.

(** C4 fails on the code: [train_dsm] builds an [Adam] optimizer for a model
    that declares ['SGD'], for which [get_optimizer] would build plain
    stochastic gradient descent; and it trains a model that declares an
    unsupported kind without raising anything. *)
Lemma train_dsm_ignores_declared_optimizer :
  (exists fr0 nb h0,
     @train_setup Toy.T (Toy.heap0 "SGD") 1%positive Toy.args0 =
       Ok (fr0, nb, h0) /\
     kind (tr_optimizer fr0) = Adam /\
     (optimizer <$> h0 !! 1%positive) = Some "SGD" /\
     @get_optimizer Toy.T h0 1%positive (learning_rate Toy.args0) =
       Ok (@MkOptimizer Toy.T SGD 1%positive (learning_rate Toy.args0) 0))
  /\
  (exists ex fr h',
     @train_dsm_run Toy.T (Toy.heap0 "SGD") 1%positive Toy.args0 =
       Ok (ex, fr, h') /\
     kind (tr_optimizer fr) = Adam)
  /\
  (exists i h',
     @train_dsm Toy.T (Toy.heap0 "Foo") 1%positive Toy.args0 =
       Ok (1%positive, i, h') /\
     @get_optimizer Toy.T (Toy.heap0 "Foo") 1%positive
       (learning_rate Toy.args0) =
       Raise (NotImplementedError "Optimizer Foo is not implemented")).
Proof.
  split; [|split].
  - eexists _, _, _. split; [vm_compute; reflexivity|].
    split; [reflexivity | split; vm_compute; reflexivity].
  - eexists _, _, _. split; [vm_compute; reflexivity | reflexivity].
  - eexists _, _. split; vm_compute; reflexivity.
Qed.

(** ** What pretraining leaves untouched *)

Section Frame.

Context {C : Collaborators}.

(** C10: [pretrain_dsm] returns a new object and leaves every object of the
    store as it was, the model it was given among them; the object it
    returns depends on that model through its distribution tag only.  The
    [shape] and [scale] of the model are overwritten after it has returned,
    by the setup of [train_dsm], with those of the object returned. *)
Theorem pretrain_leaves_model (h : heap) (l : loc) (m : model)
    (t e tv ev : list float) (n : nat) (rate thres : float) :
  h !! l = Some m ->
  (exists p h',
     pretrain_dsm h l t e tv ev n rate thres = Ok (p, h') /\
     ~ elem_of p (dom h) /\ p <> l /\
     h' !! l = Some m /\
     (forall l', l' <> p -> h' !! l' = h !! l') /\
     (exists N, N <= n /\
        h' !! p = Some (snd (premodel_at (dist m) rate t e N))) /\
     (forall (h2 : heap) (l2 : loc) (m2 : model),
        h2 !! l2 = Some m2 -> dist m2 = dist m ->
        exists p2 h2',
          pretrain_dsm h2 l2 t e tv ev n rate thres = Ok (p2, h2') /\
          h2' !! p2 = h' !! p))
  /\
  (forall a : train_args, bs a <> 0%Z ->
     exists p h1 pm fr0 nb h0 m0,
       pretrain_dsm h l
         (_reshape_tensor_with_nans (t_train a))
         (_reshape_tensor_with_nans (e_train a))
         (_reshape_tensor_with_nans (t_valid a))
         (_reshape_tensor_with_nans (e_valid a))
         (100 * 100) lit_1e_2 lit_1e_4 = Ok (p, h1) /\
       h1 !! p = Some pm /\ h1 !! l = Some m /\
       train_setup h l a = Ok (fr0, nb, h0) /\
       h0 !! l = Some m0 /\
       shape (params m0) = store_as (precision m) (shape (params pm)) /\
       scale (params m0) = store_as (precision m) (scale (params pm)) /\
       weights (params m0) = weights_double (weights (params m)) /\
       dist m0 = dist m /\ optimizer m0 = optimizer m).
Proof.
  intros Hl. split.
  - destruct (pretrain_dsm_spec h l m t e tv ev n rate thres Hl)
      as (N & HN & HNn & Hpre).
    pose proof (new_object_fresh h l m Hl) as Hfresh.
    eexists _, _. split; [exact Hpre|].
    split; [apply is_fresh | split; [exact Hfresh | split; [|split; [|split]]]].
    + rewrite lookup_insert_ne by exact Hfresh. exact Hl.
    + intros l' Hl'. apply lookup_insert_ne. congruence.
    + exists N. split; [exact HNn | apply lookup_insert_eq].
    + intros h2 l2 m2 Hl2 Hd.
      destruct (pretrain_dsm_spec h2 l2 m2 t e tv ev n rate thres Hl2)
        as (N2 & HN2 & _ & Hpre2).
      rewrite Hd in HN2, Hpre2. rewrite <- HN in HN2. subst N2.
      eexists _, _. split; [exact Hpre2|].
      rewrite !lookup_insert_eq. reflexivity.
  - intros a Hbs.
    destruct (train_setup_spec h l m a Hl Hbs)
      as (p & h1 & pm & Hpre & _ & Hp & Hl1 & Hsetup).
    eexists p, h1, pm, _, _, _, _.
    split; [exact Hpre | split; [exact Hp | split; [exact Hl1|]]].
    split; [exact Hsetup | split; [apply lookup_insert_eq|]].
    repeat split; reflexivity.
Qed.

End Frame.

Lemma pretrain_leaves_model_witness :
  Toy.heap0 "Adam" !! 1%positive = Some (Toy.model0 "Adam") /\
  exists p h',
    @pretrain_dsm Toy.T (Toy.heap0 "Adam") 1%positive
      [Toy.f2_0] [Toy.f1_0] [Toy.f3_0] [Toy.f1_0] (100 * 100)
      lit_1e_2 lit_1e_4 = Ok (p, h') /\
    p <> 1%positive /\
    h' !! 1%positive = Some (Toy.model0 "Adam").
Proof.
  split; [reflexivity|].
  destruct (@pretrain_leaves_model Toy.T (Toy.heap0 "Adam") 1%positive
              (Toy.model0 "Adam") [Toy.f2_0] [Toy.f1_0] [Toy.f3_0] [Toy.f1_0]
              (100 * 100) lit_1e_2 lit_1e_4 eq_refl)
    as [(p & h' & Hrun & _ & Hp & Hl & _) _].
  exists p, h'. auto.
Defined.

(** ** What an epoch and a call train by *)

Lemma iter_ext {A : Type} (f g : A -> A) :
  (forall s, g s = f s) -> forall k s0, Nat.iter k g s0 = Nat.iter k f s0.
Proof.
  intros H k s0. induction k as [|k IH]; simpl; [reflexivity|].
  rewrite IH. apply H.
Qed.

Lemma train_stop_ext (c1 c2 : nat -> float) :
  (forall k, c1 k = c2 k) ->
  forall n i0 pat oc, train_stop c1 i0 n pat oc = train_stop c2 i0 n pat oc.
Proof.
  intros H n. induction n as [|n IH]; intros i0 pat oc; simpl; [reflexivity|].
  rewrite H. destruct (ge (c2 i0) oc); [destruct (pat =? 2)|]; auto.
Qed.

Section TrainsBy.

Context {C : Collaborators}.

Lemma valid_cost_ext (a : train_args)
    (f g : Buffers * model -> Buffers * model) :
  (forall s, g s = f s) ->
  forall s0 k, valid_cost a g s0 k = valid_cost a f s0 k.
Proof.
  intros H s0 k. unfold valid_cost. rewrite (iter_ext f g H). reflexivity.
Qed.

(** The body of the loop over the epochs takes the optimizer steps of the
    batches, evaluates the validation loss on the model they give, and
    leaves that model in the store unless it returns. *)
Lemma train_epoch_trains (l : loc) (a : train_args) (nb : Z) :
  epoch_trains_by l a nb (epoch_descend a nb).
Proof.
  intros s i pat ip oc dics cs h Hl Hlen. cbv zeta.
  pose proof (train_epoch_spec l a nb s 0 i pat ip oc dics cs h Hl) as H.
  cbv beta zeta in H. unfold epoch_cost, epoch_snapshot in H.
  change (model_after a nb s 1) with (epoch_descend a nb s) in H.
  change (model_after a nb s 0) with s in H.
  change (valid_cost a (epoch_descend a nb) s 0)
    with (conditional_loss (snd (epoch_descend a nb s)) (x_valid a)
            (_reshape_tensor_with_nans (t_valid a))
            (_reshape_tensor_with_nans (e_valid a)) false).
  rewrite H. clear H.
  destruct (ge _ oc); [destruct (pat =? 2)|]; cbn [andb].
  - destruct (np_argmax_spec
                (cs ++ [conditional_loss (snd (epoch_descend a nb s))
                          (x_valid a) (_reshape_tensor_with_nans (t_valid a))
                          (_reshape_tensor_with_nans (e_valid a)) false]))
      as (maxm & cm & Hm & Hcm & _).
    { intros E. apply app_eq_nil in E. destruct E; discriminate. }
    rewrite Hm. cbn [rbind]. apply lookup_lt_Some in Hcm.
    rewrite length_app in Hcm. simpl in Hcm.
    destruct (lookup_lt_is_Some_2
                (dics ++ [params (snd (epoch_descend a nb s))]) maxm)
      as [sd Hsd].
    { rewrite length_app. simpl. lia. }
    unfold index. rewrite Hsd. cbn [rbind].
    eexists _, _. split; [reflexivity|]. cbn [ctl_state tr_optimizer tr_costs].
    split; [reflexivity | split; [reflexivity | eexists; reflexivity]].
  - eexists _, _. split; [reflexivity|]. cbn [ctl_state tr_optimizer tr_costs].
    split; [reflexivity | split; [reflexivity | split; reflexivity]].
  - eexists _, _. split; [reflexivity|]. cbn [ctl_state tr_optimizer tr_costs].
    split; [reflexivity | split; [reflexivity | split; reflexivity]].
Qed.

Lemma epoch_trains_by_ext (l : loc) (a : train_args) (nb : Z)
    (f g : Buffers * model -> Buffers * model) :
  (forall s, g s = f s) -> epoch_trains_by l a nb f ->
  epoch_trains_by l a nb g.
Proof.
  intros Heq Hf s i pat ip oc dics cs h Hl Hlen. cbv zeta.
  rewrite (valid_cost_ext a f g Heq), !Heq.
  exact (Hf s i pat ip oc dics cs h Hl Hlen).
Qed.

(** A call whose setup succeeded goes through its epochs one round of the
    batches after the other. *)
Lemma train_run_trains (h : heap) (l : loc) (a : train_args)
    (fr0 : train_locals) (nb : Z) (h0 : heap) (m0 : model) :
  train_setup h l a = Ok (fr0, nb, h0) ->
  h0 !! l = Some m0 ->
  run_trains_by h l a m0 (epoch_descend a nb).
Proof.
  intros Hsetup Hl0.
  pose proof (train_loop_spec l a nb (init_buffers Adam, m0) (n_iter a)
                0 0 0 inf h0 Hl0) as H.
  cbv beta zeta in H.
  rewrite <- (train_run_loop h l a fr0 nb h0 m0 Hsetup) in H.
  unfold run_trains_by. cbv zeta.
  change (valid_cost a (epoch_descend a nb) (init_buffers Adam, m0))
    with (epoch_cost a nb (init_buffers Adam, m0)).
  destruct (train_stop _ 0 (n_iter a) 0 inf) as [i|].
  - destruct H as (Hi & maxm & oc' & _ & _ & Hrun).
    eexists _, _, _. split; [exact Hrun|].
    cbn [tr_costs tr_optimizer].
    rewrite !length_map, !length_seq.
    split; [reflexivity | split; [reflexivity | split; [lia|]]].
    split; [reflexivity | split; [reflexivity | discriminate]].
  - destruct H as (pat' & oc' & Hrun).
    eexists _, _, _. split; [exact Hrun|].
    cbn [tr_costs tr_optimizer].
    rewrite !length_map, !length_seq.
    split; [reflexivity | split; [reflexivity | split; [lia|]]].
    split; [reflexivity | split; [reflexivity|]].
    intros _. apply lookup_insert_eq.
Qed.

Lemma run_trains_by_ext (h : heap) (l : loc) (a : train_args) (m0 : model)
    (f g : Buffers * model -> Buffers * model) :
  (forall s, g s = f s) -> run_trains_by h l a m0 f ->
  run_trains_by h l a m0 g.
Proof.
  intros Heq. unfold run_trains_by. cbv zeta.
  intros (ex & fr & h' & Hrun & Hex & HE & Hle & Ho & Hc & Hx).
  exists ex, fr, h'.
  rewrite (train_stop_ext _ _ (valid_cost_ext a f g Heq _)).
  rewrite (iter_ext f g Heq).
  split; [exact Hrun | split; [exact Hex | split; [exact HE|]]].
  split; [exact Hle | split; [exact Ho | split; [|exact Hx]]].
  etransitivity; [exact Hc|].
  apply map_ext. intros k. symmetry. apply valid_cost_ext, Heq.
Qed.

(** The steps of an epoch, read on the arguments of [conditional_loss]. *)
Lemma epoch_descend_inputs (a : train_args) (nb : Z) (s : Buffers * model) :
  fold_left (input_descend a) (conditional_inputs a nb) s =
  epoch_descend a nb s.
Proof.
  unfold conditional_inputs, epoch_descend.
  generalize (batches a nb). intros bl. revert s.
  induction bl as [|b bl IH]; intros s; simpl; [reflexivity|].
  rewrite <- IH. destruct b as [[xb tb] eb]. reflexivity.
Qed.

End TrainsBy.

(** ** The batches of an epoch *)

Lemma take_min_length {A : Type} (b : nat) (L : list A) :
  firstn (Nat.min b (length L)) L = firstn b L.
Proof.
  destruct (Nat.le_gt_cases b (length L)) as [H | H].
  - rewrite Nat.min_l by exact H. reflexivity.
  - rewrite Nat.min_r by lia. rewrite firstn_all.
    symmetry. apply take_ge. lia.
Qed.

(** A slice between two non-negative indices. *)
Lemma py_slice_nat {A : Type} (y : list A) (s t : nat) :
  py_slice y (Z.of_nat s) (Z.of_nat t) =
  firstn (Nat.min t (length y) - Nat.min s (length y))
    (skipn (Nat.min s (length y)) y).
Proof.
  unfold py_slice, slice_index. cbv zeta.
  destruct (Z.ltb_spec (Z.of_nat s) 0); [lia|].
  destruct (Z.ltb_spec (Z.of_nat t) 0); [lia|].
  f_equal; [lia | f_equal; lia].
Qed.

(** With a positive batch size, the slice of batch [j] is the [j]-th run of
    [bs] consecutive subjects (shorter or empty at the end). *)
Lemma batch_slice_pos (y : tensor3) (bs : Z) (j : nat) :
  (0 < bs)%Z ->
  batch_slice y bs j =
  firstn (Z.to_nat bs) (skipn (j * Z.to_nat bs) y).
Proof.
  intros Hbs. unfold batch_slice.
  set (b := Z.to_nat bs).
  replace (Z.of_nat j * bs)%Z with (Z.of_nat (j * b)) by (unfold b; lia).
  replace ((Z.of_nat j + 1) * bs)%Z with (Z.of_nat (j * b + b))
    by (unfold b; lia).
  rewrite py_slice_nat.
  destruct (Nat.le_gt_cases (j * b) (length y)) as [Hj | Hj].
  - rewrite (Nat.min_l (j * b)) by exact Hj.
    replace (Nat.min (j * b + b) (length y) - j * b)
      with (Nat.min b (length (skipn (j * b) y)))
      by (rewrite length_skipn; lia).
    apply take_min_length.
  - rewrite (Nat.min_r (j * b)) by lia.
    rewrite (Nat.min_r (j * b + b)) by lia.
    rewrite Nat.sub_diag, (drop_ge y (j * b)) by lia.
    rewrite firstn_nil. reflexivity.
Qed.

(** The runs of [b] consecutive entries of a list, put end to end, are the
    list. *)
Lemma concat_chunks {A : Type} (b : nat) (k : nat) :
  forall y : list A,
    length y <= k * b ->
    concat (map (fun j => firstn b (skipn (j * b) y)) (seq 0 k)) = y.
Proof.
  induction k as [|k IH]; intros y Hy.
  - destruct y; [reflexivity | simpl in Hy; lia].
  - rewrite <- cons_seq, <- seq_shift, map_cons, map_map. simpl concat.
    transitivity (firstn b y ++ skipn b y); [|apply firstn_skipn].
    f_equal.
    rewrite <- (IH (skipn b y)) by (rewrite length_skipn; lia).
    f_equal. apply map_ext. intros j.
    rewrite skipn_skipn. f_equal. f_equal. lia.
Qed.

Section Batches.

Context {C : Collaborators}.

(** C5: with a positive batch size, an epoch of [train_dsm] goes through
    [floor(n/bs) + 1] batches (the number its setup computes); the slices of
    a tensor over the [n] subjects are its consecutive runs of at most [bs]
    subjects and together make up the tensor; when [bs] divides [n] the last
    batch is empty; and the loop takes an optimizer step on every batch, the
    empty one included.  The body of the loop over the epochs, [train_epoch],
    trains by these steps: its validation cost is that of the model after
    the steps on all the batches; and so does every epoch of a call of
    [train_dsm] whose setup succeeded. *)
Theorem batches_partition (l : loc) (a : train_args) :
  (0 < bs a)%Z ->
  let n := length (x_train a) in
  exists nb : Z,
    count_batches n (bs a) = Ok nb /\
    nb = (Z.of_nat n / bs a + 1)%Z /\
    length (batches a nb) = Z.to_nat nb /\
    (forall y : tensor3, length y = n ->
       let ys := map (batch_slice y (bs a)) (seq 0 (Z.to_nat nb)) in
       concat ys = y /\
       Forall (fun b => (Z.of_nat (length b) <= bs a)%Z) ys /\
       (forall j, j < Z.to_nat nb ->
          ys !! j =
          Some (firstn (Z.to_nat (bs a)) (skipn (j * Z.to_nat (bs a)) y))) /\
       ((Z.of_nat n mod bs a = 0)%Z -> last ys = Some [])) /\
    (length (t_train a) = n -> length (e_train a) = n ->
     (Z.of_nat n mod bs a = 0)%Z ->
     last (batches a nb) = Some ([], [], [])) /\
    (forall (h h0 : heap) (fr0 : train_locals) (nb' : Z),
       train_setup h l a = Ok (fr0, nb', h0) -> nb' = nb) /\
    (forall (s : Buffers * model) (h : heap),
       h !! l = Some (snd s) ->
       for_range (train_batch l a) (seq 0 (Z.to_nat nb))
         (MkOptimizer Adam l (learning_rate a) (fst s)) h =
       Ok (Exhausted,
           MkOptimizer Adam l (learning_rate a)
             (fst (fold_left (batch_descend a) (batches a nb) s)),
           <[l := snd (fold_left (batch_descend a) (batches a nb) s)]> h)) /\
    epoch_trains_by l a nb
      (fun s => fold_left (batch_descend a) (batches a nb) s) /\
    (forall (h h0 : heap) (fr0 : train_locals) (nb' : Z) (m0 : model),
       train_setup h l a = Ok (fr0, nb', h0) -> h0 !! l = Some m0 ->
       run_trains_by h l a m0
         (fun s => fold_left (batch_descend a) (batches a nb) s)).
Proof.
  intros Hbs n.
  exists (Z.of_nat n / bs a + 1)%Z.
  set (q := Z.to_nat (Z.of_nat n / bs a)).
  set (b := Z.to_nat (bs a)).
  assert (Hq0 : (0 <= Z.of_nat n / bs a)%Z) by (apply Z.div_pos; lia).
  assert (Hnb : Z.to_nat (Z.of_nat n / bs a + 1) = S q) by (unfold q; lia).
  assert (Hdm : (Z.of_nat n =
                 bs a * (Z.of_nat n / bs a) + Z.of_nat n mod bs a)%Z)
    by (apply Z.div_mod; lia).
  assert (Hmod : (0 <= Z.of_nat n mod bs a < bs a)%Z)
    by (apply Z.mod_pos_bound; lia).
  assert (Hqb : q * b <= n /\ n < S q * b).
  { unfold q, b. nia. }
  assert (Hlast : forall y : tensor3, length y = n ->
            (Z.of_nat n mod bs a = 0)%Z -> firstn b (skipn (q * b) y) = []).
  { intros y Hy H0.
    rewrite (drop_ge y (q * b)); [apply firstn_nil|].
    rewrite Hy. unfold q, b. nia. }
  assert (Hcount : count_batches n (bs a) = Ok (Z.of_nat n / bs a + 1)%Z).
  { unfold count_batches.
    destruct (Z.eqb_spec (bs a) 0) as [E | _]; [lia|].
    rewrite Z.quot_div_nonneg by lia. reflexivity. }
  split; [exact Hcount|].
  split; [reflexivity|].
  split; [|split; [|split; [|split; [|split; [|split]]]]].
  - unfold batches. rewrite length_map, length_seq. reflexivity.
  - intros y Hy ys. subst ys. rewrite Hnb.
    rewrite (map_ext _ (fun j => firstn b (skipn (j * b) y)))
      by (intros j; apply batch_slice_pos, Hbs).
    split; [apply concat_chunks; lia | split; [|split]].
    + apply Forall_lookup. intros i x Hx. rewrite lookup_map in Hx.
      destruct (seq 0 (S q) !! i) as [j|]; [|discriminate].
      simpl in Hx. injection Hx as <-. rewrite length_firstn. unfold b. lia.
    + intros j Hj. rewrite lookup_map, lookup_seq_lt by exact Hj.
      reflexivity.
    + intros H0. rewrite seq_S, map_app. simpl. rewrite last_snoc.
      rewrite (Hlast y Hy H0). reflexivity.
  - intros Ht He H0. unfold batches. rewrite Hnb, seq_S, map_app. simpl.
    rewrite last_snoc, !batch_slice_pos by exact Hbs. fold b.
    rewrite (Hlast _ eq_refl H0), (Hlast _ Ht H0), (Hlast _ He H0).
    reflexivity.
  - intros h h0 fr0 nb' Hsetup.
    destruct (train_setup_inv _ _ _ _ _ _ Hsetup) as [_ Hnb'].
    fold n in Hnb'. congruence.
  - intros s h Hl. apply (batches_loop_spec l a _ s h Hl).
  - exact (train_epoch_trains l a _).
  - intros h h0 fr0 nb' m0 Hsetup Hl0.
    destruct (train_setup_inv _ _ _ _ _ _ Hsetup) as [_ Hnb'].
    fold n in Hnb'. rewrite Hcount in Hnb'. injection Hnb' as Hnb'.
    subst nb'.
    exact (train_run_trains h l a fr0 _ h0 m0 Hsetup Hl0).
Qed.

End Batches.

Lemma batches_partition_witness :
  (0 < bs Toy.args100)%Z /\
  exists nb : Z,
    count_batches 100 100 = Ok nb /\ nb = 2%Z /\
    @batches Toy.args100 nb =
      [(x_train Toy.args100, t_train Toy.args100, e_train Toy.args100);
       ([], [], [])] /\
    (@fold_left (nat * Model nat) _ (@batch_descend Toy.T Toy.args100)
       (@batches Toy.args100 nb) (0, Toy.model0 "Adam")).1 = 2 /\
    exists ex fr h',
      @train_dsm_run Toy.T (Toy.heap0 "Adam") 1%positive Toy.args100 =
        Ok (ex, fr, h') /\
      tr_costs fr = [Toy.f1_2; Toy.f1_5; Toy.f1_5; Toy.f1_5] /\
      tr_optimizer fr = @MkOptimizer Toy.T Adam 1%positive lit_1e_4 8.
Proof.
  split; [reflexivity|].
  destruct (@batches_partition Toy.T 1%positive Toy.args100 eq_refl)
    as (nb & Hc & Hnb & _ & _ & _ & _ & _ & _ & Hrun).
  exists nb. split; [exact Hc|]. vm_compute in Hnb.
  split; [exact Hnb|]. subst nb.
  split; [vm_compute; reflexivity | split; [vm_compute; reflexivity|]].
  edestruct (Hrun (Toy.heap0 "Adam"))
    as (ex & fr & h' & Hr & _ & _ & _ & Ho & Hcs & _);
    [vm_compute; reflexivity | vm_compute; reflexivity |].
  exists ex, fr, h'. split; [exact Hr|].
  assert (HE : length (tr_costs fr) = 4).
  { vm_compute in Hr. injection Hr as _ <- _. reflexivity. }
  rewrite HE in Ho, Hcs. split; [rewrite Hcs | rewrite Ho]; reflexivity.
Defined.

(** * Further properties *)

(** ** The stopping rule of training *)

(** A return at epoch [i] closes three epochs in a row that do not improve. *)
Lemma train_stop_sound (cost : nat -> float) (n : nat) :
  forall i0 p i,
    train_stop cost i0 n p (previous cost i0) = Some i ->
    p <= 2 -> p <= i0 ->
    (forall j, i0 - p <= j -> j < i0 -> non_improving cost j = true) ->
    i0 <= i < i0 + n /\ 2 <= i /\ three_in_a_row cost (i - 2).
Proof.
  induction n as [|n IH]; intros i0 p i H Hp Hpi Hrun; simpl in H;
    [discriminate|].
  change (ge (cost i0) (previous cost i0)) with (non_improving cost i0) in H.
  change (cost i0) with (previous cost (S i0)) in H.
  destruct (non_improving cost i0) eqn:E.
  - destruct (Nat.eqb_spec p 2) as [-> | Hne].
    + injection H as <-. split; [lia | split; [lia|]].
      unfold three_in_a_row.
      replace (i0 - 2 + 1) with (i0 - 1) by lia.
      replace (i0 - 2 + 2) with i0 by lia.
      repeat split; [apply Hrun; lia | apply Hrun; lia | exact E].
    + destruct (IH (S i0) (p + 1) i H) as (H1 & H2 & H3); try lia.
      * intros j Hj1 Hj2.
        destruct (Nat.eq_dec j i0) as [-> | Hj]; [exact E|].
        apply Hrun; lia.
      * split; [lia | split; assumption].
  - destruct (IH (S i0) 0 i H) as (H1 & H2 & H3); try lia.
    split; [lia | split; assumption].
Qed.

(** Three epochs in a row that do not improve make the loop return, at the
    latest from the third of them. *)
Lemma train_stop_complete (cost : nat -> float) (n : nat) :
  forall i0 p k,
    p <= 2 -> i0 <= k + 2 -> k + 2 < i0 + n -> i0 - k <= p ->
    (forall j, i0 <= j -> k <= j -> j <= k + 2 ->
               non_improving cost j = true) ->
    exists i, train_stop cost i0 n p (previous cost i0) = Some i /\
              i <= k + 2.
Proof.
  induction n as [|n IH]; intros i0 p k Hp Hk1 Hk2 Hk3 Hs; [lia|].
  simpl.
  change (ge (cost i0) (previous cost i0)) with (non_improving cost i0).
  change (cost i0) with (previous cost (S i0)).
  destruct (non_improving cost i0) eqn:E.
  - destruct (Nat.eqb_spec p 2) as [-> | Hne].
    + exists i0. split; [reflexivity | lia].
    + apply IH; try lia. intros j Hj1 Hj2 Hj3. apply Hs; lia.
  - assert (i0 < k).
    { destruct (Nat.lt_ge_cases i0 k) as [Hlt | Hge]; [exact Hlt|].
      rewrite Hs in E by lia. discriminate. }
    apply IH; try lia. intros j Hj1 Hj2 Hj3. apply Hs; lia.
Qed.

(** The loop returns exactly when three epochs in a row do not improve, and
    then from the third epoch of the first such run. *)
Lemma train_stop_first (cost : nat -> float) (n : nat) :
  match train_stop cost 0 n 0 inf with
  | Some i =>
      2 <= i < n /\ three_in_a_row cost (i - 2) /\
      forall k, k + 2 < i -> ~ three_in_a_row cost k
  | None => forall k, k + 2 < n -> ~ three_in_a_row cost k
  end.
Proof.
  destruct (train_stop cost 0 n 0 inf) as [i|] eqn:E.
  - destruct (train_stop_sound cost n 0 0 i E) as (H1 & H2 & H3); try lia.
    split; [lia | split; [exact H3|]].
    intros k Hk (Ha & Hb & Hc).
    destruct (train_stop_complete cost n 0 0 k) as (i' & Hi' & Hle);
      try lia.
    { intros j _ Hj1 Hj2.
      assert (Hj : j = k \/ j = k + 1 \/ j = k + 2) by lia.
      destruct Hj as [-> | [-> | ->]]; assumption. }
    change (previous cost 0) with inf in Hi'. rewrite E in Hi'.
    injection Hi' as <-. lia.
  - intros k Hk (Ha & Hb & Hc).
    destruct (train_stop_complete cost n 0 0 k) as (i' & Hi' & Hle);
      try lia.
    { intros j _ Hj1 Hj2.
      assert (Hj : j = k \/ j = k + 1 \/ j = k + 2) by lia.
      destruct Hj as [-> | [-> | ->]]; assumption. }
    change (previous cost 0) with inf in Hi'. rewrite E in Hi'.
    discriminate.
Qed.

(** ** A call of [train_dsm] from end to end *)

Section EndToEnd.

Context {C : Collaborators}.

(** The setup in full: the premodel stays in the store at the first free
    location, the model at [l] is warm-started from it. *)
Lemma train_setup_full (h : heap) (l : loc) (m : model) (a : train_args) :
  h !! l = Some m -> bs a <> 0%Z ->
  exists N,
    N = (pre_stop
           (small_change
              (pre_cost (dist m) lit_1e_2
                 (_reshape_tensor_with_nans (t_train a))
                 (_reshape_tensor_with_nans (e_train a))
                 (_reshape_tensor_with_nans (t_valid a))
                 (_reshape_tensor_with_nans (e_valid a))) lit_1e_4)
           0 (100 * 100) 0).1.2 /\
    train_setup h l a =
    Ok (TrainLocals (new_optimizer Adam l (learning_rate a)) 0 inf (Some [])
          [] 0,
        (Z.quot (Z.of_nat (length (x_train a))) (bs a) + 1)%Z,
        <[l := warm_start
                 (snd (premodel_at (dist m) lit_1e_2
                         (_reshape_tensor_with_nans (t_train a))
                         (_reshape_tensor_with_nans (e_train a)) N)) m]>
          (<[fresh (dom h) :=
               snd (premodel_at (dist m) lit_1e_2
                      (_reshape_tensor_with_nans (t_train a))
                      (_reshape_tensor_with_nans (e_train a)) N)]> h)).
Proof.
  intros Hl Hbs.
  destruct (train_setup_spec h l m a Hl Hbs)
    as (p & h1 & pm & Hpre & _ & Hp & _ & Hsetup).
  destruct (pretrain_dsm_spec h l m
              (_reshape_tensor_with_nans (t_train a))
              (_reshape_tensor_with_nans (e_train a))
              (_reshape_tensor_with_nans (t_valid a))
              (_reshape_tensor_with_nans (e_valid a))
              (100 * 100) lit_1e_2 lit_1e_4 Hl) as (N & HN & _ & Hpre').
  rewrite Hpre in Hpre'. injection Hpre' as -> ->.
  rewrite lookup_insert_eq in Hp. injection Hp as <-.
  exists N. split; [exact HN | exact Hsetup].
Qed.

(** With batch size zero the call fails on the count of the batches. *)
Lemma train_setup_zero (h : heap) (l : loc) (m : model) (a : train_args) :
  h !! l = Some m -> bs a = 0%Z ->
  train_setup h l a = Raise (ZeroDivisionError "division by zero").
Proof.
  intros Hl Hbs.
  destruct (pretrain_dsm_spec h l m
              (_reshape_tensor_with_nans (t_train a))
              (_reshape_tensor_with_nans (e_train a))
              (_reshape_tensor_with_nans (t_valid a))
              (_reshape_tensor_with_nans (e_valid a))
              (100 * 100) lit_1e_2 lit_1e_4 Hl) as (N & _ & _ & Hpre).
  pose proof (new_object_fresh h l m Hl) as Hfresh.
  unfold train_setup. rewrite Hpre. cbn [rbind].
  rewrite (deref_Some _ _ _ (lookup_insert_eq _ _ _)). cbn [rbind].
  unfold deref at 1. rewrite lookup_insert_ne, Hl by exact Hfresh.
  cbn [rbind].
  rewrite (deref_Some _ l _ (lookup_insert_eq _ _ _)). cbn [rbind].
  unfold double.
  rewrite (deref_Some _ l _ (lookup_insert_eq _ _ _)). cbn [rbind].
  unfold count_batches. rewrite Hbs. reflexivity.
Qed.

(** The whole run, read on the stopping rule. *)
Lemma train_dsm_run_full (h : heap) (l : loc) (m : model) (a : train_args) :
  h !! l = Some m -> bs a <> 0%Z ->
  exists (h1 : heap) (m0 : model) (nb : Z),
    (forall l', l' <> fresh (dom h) -> h1 !! l' = h !! l') /\
    is_Some (h1 !! fresh (dom h)) /\
    (exists pm, m0 = warm_start pm m) /\
    nb = (Z.quot (Z.of_nat (length (x_train a))) (bs a) + 1)%Z /\
    train_setup h l a =
      Ok (TrainLocals (new_optimizer Adam l (learning_rate a)) 0 inf
            (Some []) [] 0, nb, <[l := m0]> h1) /\
    let s0 := (init_buffers Adam, m0) in
    let cost := epoch_cost a nb s0 in
    match train_stop cost 0 (n_iter a) 0 inf with
    | Some i =>
        exists maxm fr,
          np_argmax (map cost (seq 0 (S i))) = Ok maxm /\ maxm <= i /\
          tr_i fr = i /\ tr_dics fr = None /\
          train_dsm_run h l a =
          Ok (Returned, fr,
              <[l := load_state_dict (snd (model_after a nb s0 (S i)))
                       (epoch_snapshot a nb s0 maxm)]> h1)
    | None =>
        exists fr,
          tr_i fr = n_iter a - 1 /\
          tr_dics fr =
            Some (map (epoch_snapshot a nb s0) (seq 0 (n_iter a))) /\
          tr_costs fr = map cost (seq 0 (n_iter a)) /\
          train_dsm_run h l a =
          Ok (Exhausted, fr, <[l := snd (model_after a nb s0 (n_iter a))]> h1)
    end.
Proof.
  intros Hl Hbs.
  destruct (train_setup_full h l m a Hl Hbs) as (N & _ & Hsetup).
  match type of Hsetup with
  | _ = Ok (_, ?nb, <[l := ?m0]> ?h1) =>
      pose proof (train_loop_spec l a nb (init_buffers Adam, m0) (n_iter a)
                    0 0 0 inf (<[l := m0]> h1) (lookup_insert_eq _ _ _)) as H;
      cbv beta zeta in H;
      rewrite <- (train_run_loop h l a _ nb _ m0 Hsetup) in H;
      exists h1, m0, nb
  end.
  split; [intros l' Hl'; apply lookup_insert_ne; congruence|].
  split; [rewrite lookup_insert_eq; eauto|].
  split; [eexists; reflexivity|].
  split; [reflexivity|]. split; [exact Hsetup|].
  intros s0 cost. fold s0 in H. fold cost in H.
  destruct (train_stop cost 0 (n_iter a) 0 inf) as [i|].
  - destruct H as (_ & maxm & oc' & Hm & Hle & Hrun).
    rewrite insert_insert_eq in Hrun.
    eexists maxm, _. split; [exact Hm | split; [exact Hle|]].
    split; [|split; [|exact Hrun]]; reflexivity.
  - destruct H as (pat' & oc' & Hrun).
    rewrite insert_insert_eq in Hrun. simpl in Hrun.
    eexists. split; [|split; [|split; [|exact Hrun]]]; try reflexivity.
    cbn [tr_i]. destruct (n_iter a); simpl; lia.
Qed.

End EndToEnd.

Section EndToEndProperties.

Context {C : Collaborators}.

(** Optimizer steps change the parameters of an object, not its tags nor
    its precision. *)
Lemma descend_tags (k : optimizer_kind) (rate : float) (g : Grad)
    (s : Buffers * model) :
  dist (snd (descend k rate g s)) = dist (snd s) /\
  optimizer (snd (descend k rate g s)) = optimizer (snd s) /\
  precision (snd (descend k rate g s)) = precision (snd s).
Proof.
  unfold descend. destruct (update _ _ _ _ _). simpl. auto.
Qed.

Lemma epoch_descend_tags (a : train_args) (nb : Z) (s : Buffers * model) :
  dist (snd (epoch_descend a nb s)) = dist (snd s) /\
  optimizer (snd (epoch_descend a nb s)) = optimizer (snd s) /\
  precision (snd (epoch_descend a nb s)) = precision (snd s).
Proof.
  unfold epoch_descend. generalize (batches a nb). intros bl.
  revert s. induction bl as [|b bl IH]; intros s; simpl; [auto|].
  destruct (IH (batch_descend a s b)) as (H1 & H2 & H3).
  rewrite H1, H2, H3. destruct b as [[xb tb] eb]. apply descend_tags.
Qed.

Lemma model_after_tags (a : train_args) (nb : Z) (s0 : Buffers * model)
    (k : nat) :
  dist (snd (model_after a nb s0 k)) = dist (snd s0) /\
  optimizer (snd (model_after a nb s0 k)) = optimizer (snd s0) /\
  precision (snd (model_after a nb s0 k)) = precision (snd s0).
Proof.
  induction k as [|k (H1 & H2 & H3)]; [simpl; auto|].
  change (model_after a nb s0 (S k))
    with (epoch_descend a nb (model_after a nb s0 k)).
  destruct (epoch_descend_tags a nb (model_after a nb s0 k))
    as (E1 & E2 & E3).
  rewrite E1, E2, E3. auto.
Qed.

(** X1: for a model of the store, a batch size other than zero, a learning
    rate that [torch.optim.Adam] accepts and a premodel whose [shape] and
    [scale] the two [fill_] accept, [train_dsm] returns whenever the losses
    and their gradients do: none of the lookups [np.argmax(costs)],
    [dics[maxm]] or [dics.append] fails.  It gives back the reference it
    received, and an epoch index that is at most [n_iter - 1] (and 0 when
    [n_iter] is 0). *)
Theorem train_dsm_returns (h : heap) (l : loc) (m : model) (a : train_args) :
  h !! l = Some m -> bs a <> 0%Z ->
  valid_rate (learning_rate a) = true ->
  fills_accepted h l a m ->
  exists i h',
    train_dsm h l a = Ok (l, i, h') /\ i <= n_iter a - 1.
Proof.
  intros Hl Hbs _ _.
  destruct (train_dsm_run_full h l m a Hl Hbs)
    as (h1 & m0 & nb & _ & _ & _ & _ & Hsetup & H).
  cbv zeta in H.
  pose proof (train_stop_first (epoch_cost a nb (init_buffers Adam, m0))
                (n_iter a)) as Hfirst.
  destruct (train_stop _ 0 (n_iter a) 0 inf) as [i|].
  - destruct H as (maxm & fr & _ & _ & Hi & _ & Hrun).
    eexists i, _. unfold train_dsm. rewrite Hrun. cbn [rbind].
    rewrite Hi. split; [reflexivity | lia].
  - destruct H as (fr & Hi & _ & _ & Hrun).
    eexists _, _. unfold train_dsm. rewrite Hrun. cbn [rbind].
    rewrite Hi. split; [reflexivity | lia].
Qed.

(** X2: with batch size zero [train_dsm] raises the [ZeroDivisionError] of
    [x_train.shape[0]/bs], once the lines before it have gone through: the
    pretraining losses and gradients return, the two [fill_] accept the
    [shape] and [scale] of the premodel, and [torch.optim.Adam] accepts the
    learning rate. *)
Theorem train_dsm_zero_batch_size (h : heap) (l : loc) (m : model)
    (a : train_args) :
  h !! l = Some m -> bs a = 0%Z ->
  valid_rate (learning_rate a) = true ->
  fills_accepted h l a m ->
  train_dsm h l a = Raise (ZeroDivisionError "division by zero").
Proof.
  intros Hl Hbs _ _. unfold train_dsm, train_dsm_run.
  rewrite (train_setup_zero h l m a Hl Hbs). reflexivity.
Qed.

(** X5: the model that [train_dsm] leaves at the reference it was given is
    in double precision and keeps its distribution and optimizer tags,
    whether the call stopped early or not. *)
Theorem train_dsm_model_double (h : heap) (l : loc) (m : model)
    (a : train_args) :
  h !! l = Some m -> bs a <> 0%Z ->
  exists i h' m',
    train_dsm h l a = Ok (l, i, h') /\
    h' !! l = Some m' /\
    precision m' = Float64 /\ dist m' = dist m /\
    optimizer m' = optimizer m.
Proof.
  intros Hl Hbs.
  destruct (train_dsm_run_full h l m a Hl Hbs)
    as (h1 & m0 & nb & _ & _ & (pm & Hm0) & _ & Hsetup & H).
  cbv zeta in H.
  assert (Htags : forall k,
            dist (snd (model_after a nb (init_buffers Adam, m0) k)) = dist m
            /\ optimizer (snd (model_after a nb (init_buffers Adam, m0) k))
               = optimizer m
            /\ precision (snd (model_after a nb (init_buffers Adam, m0) k))
               = Float64).
  { intros k.
    destruct (model_after_tags a nb (init_buffers Adam, m0) k)
      as (H1 & H2 & H3).
    rewrite H1, H2, H3, Hm0. simpl. auto. }
  destruct (train_stop _ 0 (n_iter a) 0 inf) as [i|].
  - destruct H as (maxm & fr & _ & _ & Hi & _ & Hrun).
    eexists _, _, _. unfold train_dsm. rewrite Hrun. cbn [rbind].
    split; [reflexivity | split; [apply lookup_insert_eq|]].
    destruct (Htags (S i)) as (H1 & H2 & H3). simpl. auto.
  - destruct H as (fr & Hi & _ & _ & Hrun).
    eexists _, _, _. unfold train_dsm. rewrite Hrun. cbn [rbind].
    split; [reflexivity | split; [apply lookup_insert_eq|]].
    destruct (Htags (n_iter a)) as (H1 & H2 & H3). auto.
Qed.

(** X6: [train_dsm] changes no object that was in the store before the call
    other than the model it was given. *)
Theorem train_dsm_frame (h : heap) (l : loc) (m : model) (a : train_args) :
  h !! l = Some m -> bs a <> 0%Z ->
  exists i h',
    train_dsm h l a = Ok (l, i, h') /\
    forall l' m', l' <> l -> h !! l' = Some m' -> h' !! l' = Some m'.
Proof.
  intros Hl Hbs.
  destruct (train_dsm_run_full h l m a Hl Hbs)
    as (h1 & m0 & nb & Hframe & _ & _ & _ & Hsetup & H).
  cbv zeta in H.
  assert (Hold : forall l' m', l' <> l -> h !! l' = Some m' ->
            forall x, (<[l := x]> h1) !! l' = Some m').
  { intros l' m' Hne Hl' x. rewrite lookup_insert_ne by congruence.
    rewrite Hframe; [exact Hl'|].
    intros E. apply (is_fresh (dom h)). rewrite <- E.
    apply elem_of_dom. eauto. }
  destruct (train_stop _ 0 (n_iter a) 0 inf) as [i|].
  - destruct H as (maxm & fr & _ & _ & Hi & _ & Hrun).
    eexists _, _. unfold train_dsm. rewrite Hrun. cbn [rbind].
    split; [reflexivity|]. intros l' m' Hne Hl'. apply Hold; assumption.
  - destruct H as (fr & Hi & _ & _ & Hrun).
    eexists _, _. unfold train_dsm. rewrite Hrun. cbn [rbind].
    split; [reflexivity|]. intros l' m' Hne Hl'. apply Hold; assumption.
Qed.

End EndToEndProperties.

Section StoppingProperties.

Context {C : Collaborators}.

(** X3: [train_dsm] returns from inside its loop exactly when, within the
    epochs allowed, three epochs in a row have a validation cost at least
    the one before; it then returns from the third epoch of the first such
    run, never before the epoch of index 2.  (The patience is reset by
    every improving epoch.) *)
Theorem early_stop_first_three_in_a_row (h : heap) (l : loc) (a : train_args)
    (fr0 : train_locals) (nb : Z) (h0 : heap) (m0 : model) :
  train_setup h l a = Ok (fr0, nb, h0) ->
  h0 !! l = Some m0 ->
  let cost := epoch_cost a nb (init_buffers Adam, m0) in
  exists ex fr h',
    train_dsm_run h l a = Ok (ex, fr, h') /\
    (ex = Returned <->
     exists k, k + 2 < n_iter a /\ three_in_a_row cost k) /\
    (ex = Returned ->
     2 <= tr_i fr < n_iter a /\
     three_in_a_row cost (tr_i fr - 2) /\
     forall k, k + 2 < tr_i fr -> ~ three_in_a_row cost k).
Proof.
  intros Hsetup Hl0 cost.
  pose proof (train_loop_spec l a nb (init_buffers Adam, m0) (n_iter a)
                0 0 0 inf h0 Hl0) as H.
  cbv beta zeta in H.
  rewrite <- (train_run_loop h l a fr0 nb h0 m0 Hsetup) in H.
  fold cost in H.
  pose proof (train_stop_first cost (n_iter a)) as Hfirst.
  destruct (train_stop cost 0 (n_iter a) 0 inf) as [i|].
  - destruct H as (_ & maxm & oc' & _ & _ & Hrun).
    destruct Hfirst as (Hi & Htriple & Hmin).
    eexists _, _, _. split; [exact Hrun|]. cbn [tr_i]. split.
    + split; [intros _ | reflexivity].
      exists (i - 2). split; [lia | exact Htriple].
    + intros _. split; [lia | split; assumption].
  - destruct H as (pat' & oc' & Hrun).
    eexists _, _, _. split; [exact Hrun|]. split.
    + split; [discriminate|]. intros (k & Hk & Ht).
      exfalso. exact (Hfirst k Hk Ht).
    + discriminate.
Qed.

(** X4: when no three epochs in a row fail to improve within the epochs
    allowed, [train_dsm] runs them all: the model is left with the
    parameters of the last epoch (nothing is restored), every epoch's
    snapshot and cost is still on record, and the index returned is
    [n_iter - 1]. *)
Theorem no_early_stop_runs_all_epochs (h : heap) (l : loc) (a : train_args)
    (fr0 : train_locals) (nb : Z) (h0 : heap) (m0 : model) :
  train_setup h l a = Ok (fr0, nb, h0) ->
  h0 !! l = Some m0 ->
  let s0 := (init_buffers Adam, m0) in
  let cost := epoch_cost a nb s0 in
  (forall k, k + 2 < n_iter a -> ~ three_in_a_row cost k) ->
  exists fr h',
    train_dsm_run h l a = Ok (Exhausted, fr, h') /\
    h' !! l = Some (snd (model_after a nb s0 (n_iter a))) /\
    tr_costs fr = map cost (seq 0 (n_iter a)) /\
    tr_dics fr = Some (map (epoch_snapshot a nb s0) (seq 0 (n_iter a))) /\
    train_dsm h l a = Ok (l, n_iter a - 1, h').
Proof.
  intros Hsetup Hl0 s0 cost Hno.
  pose proof (train_loop_spec l a nb (init_buffers Adam, m0) (n_iter a)
                0 0 0 inf h0 Hl0) as H.
  cbv beta zeta in H.
  rewrite <- (train_run_loop h l a fr0 nb h0 m0 Hsetup) in H.
  fold s0 in H. fold cost in H.
  pose proof (train_stop_first cost (n_iter a)) as Hfirst.
  destruct (train_stop cost 0 (n_iter a) 0 inf) as [i|].
  - destruct Hfirst as (Hi & Htriple & _).
    exfalso. apply (Hno (i - 2)); [lia | exact Htriple].
  - destruct H as (pat' & oc' & Hrun). simpl in Hrun.
    eexists _, _. split; [exact Hrun|]. cbn [tr_costs tr_dics].
    split; [apply lookup_insert_eq|].
    split; [reflexivity | split; [reflexivity|]].
    unfold train_dsm. rewrite Hrun. cbn [rbind tr_i].
    destruct (n_iter a); simpl; repeat f_equal; lia.
Qed.

End StoppingProperties.

Lemma early_stop_first_three_in_a_row_witness :
  exists ex fr h',
    @train_dsm_run Toy.T (Toy.heap0 "Adam") 1%positive Toy.args0 =
      Ok (ex, fr, h') /\
    ex = Returned /\ tr_i fr = 3.
Proof.
  edestruct (@early_stop_first_three_in_a_row Toy.T (Toy.heap0 "Adam")
               1%positive Toy.args0)
    as (ex & fr & h' & Hrun & Hiff & _);
    [vm_compute; reflexivity | vm_compute; reflexivity |].
  exists ex, fr, h'. split; [exact Hrun|].
  assert (Hex : ex = Returned).
  { apply Hiff. exists 1. split; [simpl; lia|].
    repeat split; vm_compute; reflexivity. }
  split; [exact Hex|]. subst ex.
  vm_compute in Hrun. injection Hrun as <- _. reflexivity.
Defined.

Lemma no_early_stop_runs_all_epochs_witness :
  exists fr h',
    @train_dsm_run Scenarios.Falling (Toy.heap0 "Adam") 1%positive
      (Scenarios.args_with 6 100) = Ok (Exhausted, fr, h') /\
    tr_costs fr =
      [Toy.f3_0; Toy.f2_0; Toy.f1_5; Toy.f1_3; Toy.f1_2; Toy.f1_0] /\
    @train_dsm Scenarios.Falling (Toy.heap0 "Adam") 1%positive
      (Scenarios.args_with 6 100) = Ok (1%positive, 5, h').
Proof.
  edestruct (@no_early_stop_runs_all_epochs Scenarios.Falling
               (Toy.heap0 "Adam") 1%positive (Scenarios.args_with 6 100))
    as (fr & h' & Hrun & _ & Hc & _ & Hr);
    [vm_compute; reflexivity | vm_compute; reflexivity | |].
  - intros k Hk (H0 & H1 & H2).
    assert (Hk' : k = 0 \/ k = 1 \/ k = 2 \/ k = 3) by (simpl in Hk; lia).
    destruct Hk' as [-> | [-> | [-> | ->]]]; vm_compute in H0; discriminate.
  - exists fr, h'. split; [exact Hrun | split; [|exact Hr]].
    rewrite Hc. vm_compute. reflexivity.
Defined.

Lemma train_dsm_returns_witness :
  Toy.heap0 "Adam" !! 1%positive = Some (Toy.model0 "Adam") /\
  valid_rate (learning_rate Toy.args0) = true /\
  @fills_accepted Toy.T (Toy.heap0 "Adam") 1%positive Toy.args0
    (Toy.model0 "Adam") /\
  exists i h',
    @train_dsm Toy.T (Toy.heap0 "Adam") 1%positive Toy.args0 =
      Ok (1%positive, i, h') /\ i <= 9.
Proof.
  assert (Hf : @fills_accepted Toy.T (Toy.heap0 "Adam") 1%positive Toy.args0
                 (Toy.model0 "Adam")).
  { intros p h1 pm Hpre Hp. vm_compute in Hpre. injection Hpre as <- <-.
    vm_compute in Hp. injection Hp as <-. split; reflexivity. }
  split; [reflexivity | split; [reflexivity | split; [exact Hf|]]].
  apply (@train_dsm_returns Toy.T (Toy.heap0 "Adam") 1%positive
           (Toy.model0 "Adam") Toy.args0);
    [reflexivity | discriminate | reflexivity | exact Hf].
Defined.

Lemma train_dsm_zero_batch_size_witness :
  valid_rate (learning_rate (Scenarios.args_with 10 0)) = true /\
  @fills_accepted Toy.T (Toy.heap0 "Adam") 1%positive
    (Scenarios.args_with 10 0) (Toy.model0 "Adam") /\
  @train_dsm Toy.T (Toy.heap0 "Adam") 1%positive (Scenarios.args_with 10 0) =
  Raise (ZeroDivisionError "division by zero").
Proof.
  assert (Hf : @fills_accepted Toy.T (Toy.heap0 "Adam") 1%positive
                 (Scenarios.args_with 10 0) (Toy.model0 "Adam")).
  { intros p h1 pm Hpre Hp. vm_compute in Hpre. injection Hpre as <- <-.
    vm_compute in Hp. injection Hp as <-. split; reflexivity. }
  split; [reflexivity | split; [exact Hf|]].
  apply (@train_dsm_zero_batch_size Toy.T (Toy.heap0 "Adam") 1%positive
           (Toy.model0 "Adam") (Scenarios.args_with 10 0));
    [reflexivity | reflexivity | reflexivity | exact Hf].
Defined.

Lemma train_dsm_model_double_witness :
  precision (Toy.model0 "SGD") = Float32 /\
  exists i h' m',
    @train_dsm Toy.T (Toy.heap0 "SGD") 1%positive Toy.args0 =
      Ok (1%positive, i, h') /\
    h' !! 1%positive = Some m' /\
    precision m' = Float64 /\ dist m' = "Weibull" /\ optimizer m' = "SGD".
Proof.
  split; [reflexivity|].
  apply (@train_dsm_model_double Toy.T (Toy.heap0 "SGD") 1%positive
           (Toy.model0 "SGD") Toy.args0); [reflexivity | discriminate].
Defined.

Lemma train_dsm_frame_witness :
  let h : gmap loc (Model nat) :=
    <[2%positive := Toy.model0 "SGD"]> (Toy.heap0 "Adam") in
  exists i h',
    @train_dsm Toy.T h 1%positive Toy.args0 = Ok (1%positive, i, h') /\
    h' !! 2%positive = Some (Toy.model0 "SGD").
Proof.
  intros h.
  destruct (@train_dsm_frame Toy.T h 1%positive (Toy.model0 "Adam")
              Toy.args0) as (i & h' & Hr & Hf);
    [reflexivity | discriminate |].
  exists i, h'. split; [exact Hr|].
  apply Hf; [discriminate | reflexivity].
Defined.

(** ** More on the stopping rule of pretraining *)

(** The first iteration is compared with [float('inf')]: its change is not
    below any threshold, whatever the loss. *)
Lemma first_change_not_small (cost : nat -> float) (thres : float) :
  small_change cost thres 0 = false.
Proof.
  unfold small_change. simpl.
  destruct (cost 0) as [s|[|]| |s m ex];
    destruct thres as [s'|[|]| |s' m' ex']; reflexivity.
Qed.

Lemma filter_length_bound {A : Type} (f : A -> bool) (l : list A) :
  length (List.filter f l) <= length l.
Proof.
  induction l as [|x l IH]; simpl; [lia|].
  destruct (f x); simpl; lia.
Qed.

Lemma small_changes_first (small : nat -> bool) (N : nat) :
  small 0 = false -> small_changes small N <= N - 1.
Proof.
  intros H0. unfold small_changes. destruct N as [|N]; [simpl; lia|].
  rewrite <- cons_seq. simpl. rewrite H0.
  pose proof (filter_length_bound small (seq 1 N)) as H.
  rewrite length_seq in H. lia.
Qed.

(** The patience counts the small changes met, consecutive or not, and the
    loop breaks on the third. *)
Lemma pre_stop_count (small : nat -> bool) (n : nat) :
  forall i0 pat ex N pat',
    pre_stop small i0 n pat = (ex, N, pat') -> pat <= 2 ->
    pat' = pat + length (List.filter small (seq i0 (N - i0))) /\
    (ex = Broke -> small (N - 1) = true /\ pat' = 3) /\
    (ex = Exhausted -> pat' <= 2 /\ N = i0 + n).
Proof.
  induction n as [|n IH]; intros i0 pat ex N pat' H Hpat; simpl in H.
  - injection H as <- <- <-. rewrite Nat.sub_diag. simpl.
    split; [lia | split; [discriminate | intros _; lia]].
  - pose proof H as Hb.
    destruct (small i0) eqn:Es.
    + destruct (pat + 1 =? 3) eqn:E.
      * injection H as <- <- <-. apply Nat.eqb_eq in E.
        replace (S i0 - i0) with 1 by lia. simpl. rewrite Es. simpl.
        replace (i0 - 0) with i0 by lia.
        split; [lia | split; [intros _; split; [exact Es | lia]|]].
        discriminate.
      * apply Nat.eqb_neq in E.
        destruct (pre_stop_bounds _ _ _ _ _ _ _ H) as [HN _].
        destruct (IH _ _ _ _ _ H) as (H1 & H2 & H3); [lia|].
        replace (N - i0) with (S (N - S i0)) by lia.
        rewrite <- cons_seq. simpl. rewrite Es. simpl.
        split; [lia | split; [exact H2|]].
        intros Hex. destruct (H3 Hex). lia.
    + destruct (pre_stop_bounds _ _ _ _ _ _ _ H) as [HN _].
      destruct (IH _ _ _ _ _ H Hpat) as (H1 & H2 & H3).
      replace (N - i0) with (S (N - S i0)) by lia.
      rewrite <- cons_seq. simpl. rewrite Es.
      split; [lia | split; [exact H2|]].
      intros Hex. destruct (H3 Hex). lia.
Qed.

Section PretrainingProperties.

Context {C : Collaborators}.

Lemma premodel_at_tags (d : string) (rate : float) (t e : list float)
    (k : nat) :
  dist (snd (premodel_at d rate t e k)) = d /\
  precision (snd (premodel_at d rate t e k)) = Float64.
Proof.
  induction k as [|k [H1 H2]]; [simpl; auto|].
  change (premodel_at d rate t e (S k))
    with (descend Adam rate
            (unconditional_grad (snd (premodel_at d rate t e k)) t e)
            (premodel_at d rate t e k)).
  destruct (descend_tags Adam rate
              (unconditional_grad (snd (premodel_at d rate t e k)) t e)
              (premodel_at d rate t e k)) as (E1 & _ & E3).
  rewrite E1, E3. auto.
Qed.

(** X10: whatever the losses and the threshold, [pretrain_dsm] takes at
    least four optimizer steps when [n_iter] allows four (the first
    iteration never counts towards the patience), and at most [n_iter]; the
    object it returns is the new single-feature model after exactly that
    many [Adam] steps, in double precision and with the distribution tag of
    the model it was given. *)
Theorem pretrain_at_least_four (h : heap) (l : loc) (m : model)
    (t e tv ev : list float) (n : nat) (rate thres : float) :
  h !! l = Some m ->
  exists p h' N,
    pretrain_dsm h l t e tv ev n rate thres = Ok (p, h') /\
    Nat.min n 4 <= N <= n /\
    h' !! p = Some (snd (premodel_at (dist m) rate t e N)) /\
    (precision <$> h' !! p) = Some Float64 /\
    (dist <$> h' !! p) = Some (dist m).
Proof.
  intros Hl.
  set (small := small_change (pre_cost (dist m) rate t e tv ev) thres).
  destruct (pre_stop small 0 n 0) as [[ex N] pat'] eqn:Hs.
  destruct (pretrain_run_spec (dist m) rate thres t e tv ev (fresh (dom h))
              h l m n ex N pat' Hl eq_refl eq_refl Hs) as [oc' Hrun].
  exists (fresh (dom h)),
         (<[fresh (dom h) := snd (premodel_at (dist m) rate t e N)]> h), N.
  split; [unfold pretrain_dsm; rewrite Hrun; reflexivity|].
  destruct (pre_stop_bounds _ _ _ _ _ _ _ Hs) as [HN Hex].
  destruct (pre_stop_count _ _ _ _ _ _ _ Hs) as (Hc & Hbr & _); [lia|].
  rewrite Nat.sub_0_r in Hc.
  pose proof (small_changes_first small N
                (first_change_not_small _ thres)) as Hfirst.
  unfold small_changes in Hfirst.
  destruct (premodel_at_tags (dist m) rate t e N) as [Hd Hp].
  split; [|rewrite lookup_insert_eq; simpl; rewrite Hd, Hp; auto].
  destruct Hex as [[-> ->] | (-> & -> & _)]; lia.
Qed.

(** X11: the loop of [pretrain_dsm] never resets its patience, so it stops
    with the third iteration whose change is below the threshold, whether
    those three follow each other or not; with fewer than three such
    iterations among the [n_iter] it runs them all. *)
Theorem pretrain_third_small_change (h : heap) (l : loc) (m : model)
    (t e tv ev : list float) (n : nat) (rate thres : float) :
  h !! l = Some m ->
  let small := small_change (pre_cost (dist m) rate t e tv ev) thres in
  exists ex fr h',
    pretrain_dsm_run h l t e tv ev n rate thres = Ok (ex, fr, h') /\
    pre_patience fr = small_changes small (length (pre_costs fr)) /\
    (ex = Broke /\
     small_changes small (length (pre_costs fr)) = 3 /\
     small (length (pre_costs fr) - 1) = true /\
     length (pre_costs fr) <= n
     \/
     ex = Exhausted /\ length (pre_costs fr) = n /\
     small_changes small n <= 2).
Proof.
  intros Hl small.
  destruct (pre_stop small 0 n 0) as [[ex N] pat'] eqn:Hs.
  destruct (pretrain_run_spec (dist m) rate thres t e tv ev (fresh (dom h))
              h l m n ex N pat' Hl eq_refl eq_refl Hs) as [oc' Hrun].
  eexists _, _, _. split; [exact Hrun|].
  cbn [pre_patience pre_costs]. rewrite length_map, length_seq.
  destruct (pre_stop_bounds _ _ _ _ _ _ _ Hs) as [HN Hex].
  destruct (pre_stop_count _ _ _ _ _ _ _ Hs) as (Hc & Hbr & Hxh); [lia|].
  rewrite Nat.sub_0_r in Hc. simpl in Hc.
  split; [exact Hc|].
  destruct Hex as [[-> ->] | (-> & -> & _)].
  - right. destruct (Hxh eq_refl) as [Hp _].
    split; [reflexivity | split; [reflexivity|]].
    unfold small_changes. simpl in *. lia.
  - left. destruct (Hbr eq_refl) as [Hsm _].
    split; [reflexivity | split; [|split; [exact Hsm | lia]]].
    unfold small_changes. lia.
Qed.

End PretrainingProperties.

Lemma pretrain_at_least_four_witness :
  Toy.heap0 "Adam" !! 1%positive = Some (Toy.model0 "Adam") /\
  exists p h' N,
    @pretrain_dsm Scenarios.Stairs (Toy.heap0 "Adam") 1%positive
      [Toy.f2_0] [Toy.f1_0] [Toy.f3_0] [Toy.f1_0] 20
      lit_1e_2 inf = Ok (p, h') /\
    4 <= N <= 20 /\
    (precision <$> h' !! p) = Some Float64.
Proof.
  split; [reflexivity|].
  destruct (@pretrain_at_least_four Scenarios.Stairs (Toy.heap0 "Adam")
              1%positive (Toy.model0 "Adam")
              [Toy.f2_0] [Toy.f1_0] [Toy.f3_0] [Toy.f1_0] 20
              lit_1e_2 inf eq_refl)
    as (p & h' & N & Hr & HN & _ & Hp & _).
  exists p, h', N. split; [exact Hr | split; [exact HN | exact Hp]].
Defined.

Lemma pretrain_third_small_change_witness :
  Toy.heap0 "Adam" !! 1%positive = Some (Toy.model0 "Adam") /\
  exists fr h',
    @pretrain_dsm_run Scenarios.Stairs (Toy.heap0 "Adam") 1%positive
      [Toy.f2_0] [Toy.f1_0] [Toy.f3_0] [Toy.f1_0] 20
      lit_1e_2 lit_1e_4 = Ok (Broke, fr, h') /\
    pre_costs fr =
      [Toy.f1_0; Toy.f1_0; Toy.f2_0; Toy.f2_0; Toy.f3_0; Toy.f3_0] /\
    pre_patience fr = 3.
Proof.
  split; [reflexivity|].
  destruct (@pretrain_third_small_change Scenarios.Stairs (Toy.heap0 "Adam")
              1%positive (Toy.model0 "Adam")
              [Toy.f2_0] [Toy.f1_0] [Toy.f3_0] [Toy.f1_0] 20
              lit_1e_2 lit_1e_4 eq_refl)
    as (ex & fr & h' & Hr & _ & _).
  vm_compute in Hr. injection Hr as <- <- <-.
  eexists _, _. split; [vm_compute; reflexivity|].
  split; reflexivity.
Defined.

(** ** What the setup overwrites *)

Section WarmStart.

Context {C : Collaborators}.

Lemma warm_start_overwrites (pm m m' : model) :
  dist m' = dist m -> optimizer m' = optimizer m ->
  precision m' = precision m ->
  weights (params m') = weights (params m) ->
  warm_start pm m' = warm_start pm m.
Proof.
  intros Hd Ho Hp Hw. unfold warm_start, to_double, fill_scale, fill_shape.
  simpl. rewrite Hd, Ho, Hp, Hw. reflexivity.
Qed.

(** X12: the values of [shape] and [scale] that the model carries into
    [train_dsm] play no part: they are overwritten by those of the premodel
    before the first epoch, and two models that differ in them only are
    trained to the same result. *)
Theorem train_dsm_overwrites_shape_scale (h : heap) (l : loc)
    (m m' : model) (a : train_args) :
  h !! l = Some m ->
  dist m' = dist m -> optimizer m' = optimizer m ->
  precision m' = precision m ->
  weights (params m') = weights (params m) ->
  train_dsm (<[l := m']> h) l a = train_dsm h l a.
Proof.
  intros Hl Hd Ho Hp Hw.
  assert (Hl' : (<[l := m']> h) !! l = Some m') by apply lookup_insert_eq.
  assert (Hs : train_setup (<[l := m']> h) l a = train_setup h l a).
  { destruct (Z.eq_dec (bs a) 0%Z) as [Hbs | Hbs].
    - rewrite (train_setup_zero _ l m' a Hl' Hbs).
      rewrite (train_setup_zero _ l m a Hl Hbs). reflexivity.
    - destruct (train_setup_full h l m a Hl Hbs) as (N & HN & H1).
      destruct (train_setup_full _ l m' a Hl' Hbs) as (N' & HN' & H2).
      rewrite Hd in HN', H2. rewrite <- HN in HN'. subst N'.
      rewrite H1, H2.
      rewrite (dom_insert_lookup_L h l m') by eauto.
      rewrite (insert_insert_ne h (fresh (dom h)) l)
        by (apply (new_object_fresh h l m Hl)).
      rewrite insert_insert_eq.
      rewrite (warm_start_overwrites _ m m' Hd Ho Hp Hw). reflexivity. }
  unfold train_dsm, train_dsm_run. rewrite Hs. reflexivity.
Qed.

End WarmStart.

Lemma train_dsm_overwrites_shape_scale_witness :
  let m' : Model nat :=
    MkModel "Weibull" "Adam" Float32 (StateDict Toy.f3_0 Toy.f2_0 0) in
  m' <> Toy.model0 "Adam" /\
  @train_dsm Toy.T (<[1%positive := m']> (Toy.heap0 "Adam")) 1%positive
    Toy.args0 =
  @train_dsm Toy.T (Toy.heap0 "Adam") 1%positive Toy.args0.
Proof.
  intros m'. split; [discriminate|].
  apply (@train_dsm_overwrites_shape_scale Toy.T (Toy.heap0 "Adam")
           1%positive (Toy.model0 "Adam") m' Toy.args0); reflexivity.
Defined.

(** ** What an epoch trains on *)

Lemma reshape_app (a b : tensor3) :
  _reshape_tensor_with_nans (a ++ b) =
  _reshape_tensor_with_nans a ++ _reshape_tensor_with_nans b.
Proof.
  unfold _reshape_tensor_with_nans, reshape_flat.
  rewrite !concat_app, List.filter_app. reflexivity.
Qed.

Lemma reshape_concat (ys : list tensor3) :
  _reshape_tensor_with_nans (concat ys) =
  concat (map _reshape_tensor_with_nans ys).
Proof.
  induction ys as [|y ys IH]; simpl; [reflexivity|].
  rewrite reshape_app, IH. reflexivity.
Qed.

(** The slices of the batches of an epoch, put end to end, are the
    tensor. *)
Lemma batch_slices_concat (y : tensor3) (n : nat) (bs nb : Z) :
  (0 < bs)%Z -> length y = n -> count_batches n bs = Ok nb ->
  concat (map (batch_slice y bs) (seq 0 (Z.to_nat nb))) = y.
Proof.
  intros Hbs Hy Hc. unfold count_batches in Hc.
  destruct (Z.eqb_spec bs 0) as [E | _]; [lia|].
  injection Hc as <-. rewrite Z.quot_div_nonneg by lia.
  rewrite (map_ext _ (fun j =>
             firstn (Z.to_nat bs) (skipn (j * Z.to_nat bs) y)))
    by (intros j; apply batch_slice_pos, Hbs).
  apply concat_chunks. rewrite Hy.
  assert (Hq0 : (0 <= Z.of_nat n / bs)%Z) by (apply Z.div_pos; lia).
  assert (Hdm : (Z.of_nat n = bs * (Z.of_nat n / bs) + Z.of_nat n mod bs)%Z)
    by (apply Z.div_mod; lia).
  assert (Hmod : (0 <= Z.of_nat n mod bs < bs)%Z)
    by (apply Z.mod_pos_bound; lia).
  nia.
Qed.

Section EpochData.

Context {C : Collaborators}.

(** The batches of an epoch cover the training data. *)
Lemma batches_cover (a : train_args) (nb : Z) :
  (0 < bs a)%Z ->
  length (t_train a) = length (x_train a) ->
  length (e_train a) = length (x_train a) ->
  count_batches (length (x_train a)) (bs a) = Ok nb ->
  concat (map (fun b => b.1.1) (batches a nb)) = x_train a /\
  concat (map (fun b => _reshape_tensor_with_nans b.1.2) (batches a nb)) =
    _reshape_tensor_with_nans (t_train a) /\
  concat (map (fun b => _reshape_tensor_with_nans b.2) (batches a nb)) =
    _reshape_tensor_with_nans (e_train a).
Proof.
  intros Hbs Ht He Hc. unfold batches. rewrite !map_map. simpl.
  split; [|split].
  - apply (batch_slices_concat _ _ _ _ Hbs eq_refl Hc).
  - rewrite <- (map_map (batch_slice (t_train a) (bs a))
                  _reshape_tensor_with_nans), <- reshape_concat.
    rewrite (batch_slices_concat (t_train a) _ _ _ Hbs Ht Hc). reflexivity.
  - rewrite <- (map_map (batch_slice (e_train a) (bs a))
                  _reshape_tensor_with_nans), <- reshape_concat.
    rewrite (batch_slices_concat (e_train a) _ _ _ Hbs He Hc). reflexivity.
Qed.

(** X7: with a positive batch size, [train_epoch] and every epoch of a call
    of [train_dsm] whose setup succeeded take one optimizer step on the
    gradient of [conditional_loss] at each of the arguments
    [conditional_inputs], in order; the covariates among these arguments are
    the training covariates in order, and the times and events, each
    unrolled and stripped on its own batch, are together the unrolled and
    stripped training times and events (those that pretraining saw): every
    observation is used once an epoch. *)
Theorem epoch_uses_every_observation (l : loc) (a : train_args) (nb : Z) :
  (0 < bs a)%Z ->
  length (t_train a) = length (x_train a) ->
  length (e_train a) = length (x_train a) ->
  count_batches (length (x_train a)) (bs a) = Ok nb ->
  concat (map (fun inp => inp.1.1) (conditional_inputs a nb)) = x_train a /\
  concat (map (fun inp => inp.1.2) (conditional_inputs a nb)) =
    _reshape_tensor_with_nans (t_train a) /\
  concat (map (fun inp => inp.2) (conditional_inputs a nb)) =
    _reshape_tensor_with_nans (e_train a) /\
  epoch_trains_by l a nb
    (fun s => fold_left (input_descend a) (conditional_inputs a nb) s) /\
  (forall (h h0 : heap) (fr0 : train_locals) (nb' : Z) (m0 : model),
     train_setup h l a = Ok (fr0, nb', h0) -> h0 !! l = Some m0 ->
     run_trains_by h l a m0
       (fun s => fold_left (input_descend a) (conditional_inputs a nb) s)).
Proof.
  intros Hbs Ht He Hc.
  destruct (batches_cover a nb Hbs Ht He Hc) as (Hx & Ht' & He').
  unfold conditional_inputs at 1 2 3. rewrite !map_map. cbn [fst snd].
  split; [exact Hx | split; [exact Ht' | split; [exact He' | split]]].
  - apply (epoch_trains_by_ext l a nb (epoch_descend a nb));
      [apply epoch_descend_inputs | apply train_epoch_trains].
  - intros h h0 fr0 nb' m0 Hsetup Hl0.
    destruct (train_setup_inv _ _ _ _ _ _ Hsetup) as [_ Hnb'].
    rewrite Hc in Hnb'. injection Hnb' as Hnb'. subst nb'.
    apply (run_trains_by_ext h l a m0 (epoch_descend a nb));
      [apply epoch_descend_inputs
      | exact (train_run_trains h l a fr0 nb h0 m0 Hsetup Hl0)].
Qed.

End EpochData.

Lemma epoch_uses_every_observation_witness :
  count_batches 5 2 = Ok 3%Z /\
  concat (map (fun inp => inp.1.2)
            (@conditional_inputs (Scenarios.args5 2) 3)) =
  [Toy.f2_0; Toy.f1_2; Toy.f1_5; Toy.f3_0; Toy.f1_0; Toy.f1_3; Toy.f2_0] /\
  exists ex fr h',
    @train_dsm_run Toy.T (Toy.heap0 "Adam") 1%positive (Scenarios.args5 2) =
      Ok (ex, fr, h') /\
    tr_costs fr = [Toy.f1_3; Toy.f1_5; Toy.f1_5; Toy.f1_5] /\
    tr_optimizer fr = @MkOptimizer Toy.T Adam 1%positive lit_1e_4 12.
Proof.
  split; [reflexivity|].
  destruct (@epoch_uses_every_observation Toy.T 1%positive
              (Scenarios.args5 2) 3)
    as (_ & Ht & _ & _ & Hrun);
    [reflexivity | reflexivity | reflexivity | reflexivity |].
  split; [rewrite Ht; reflexivity|].
  edestruct (Hrun (Toy.heap0 "Adam"))
    as (ex & fr & h' & Hr & _ & _ & _ & Ho & Hcs & _);
    [vm_compute; reflexivity | vm_compute; reflexivity |].
  exists ex, fr, h'. split; [exact Hr|].
  assert (HE : length (tr_costs fr) = 4).
  { vm_compute in Hr. injection Hr as _ <- _. reflexivity. }
  rewrite HE in Ho, Hcs. split; [rewrite Hcs | rewrite Ho]; reflexivity.
Defined.

(** ** More on the padding helpers *)

Lemma filter_padded (ti : list float) (k : nat) :
  List.filter (fun v => negb (isnan v)) (ti ++ nan_vec k) =
  List.filter (fun v => negb (isnan v)) ti.
Proof. rewrite List.filter_app, filter_nan_vec, app_nil_r. reflexivity. Qed.

Lemma strip_padded_any (d : nat) (t : list (list float)) :
  _reshape_tensor_with_nans
    (newaxis (map (fun ti => ti ++ nan_vec (d - length ti)) t)) =
  concat (map (List.filter (fun v => negb (isnan v))) t).
Proof.
  unfold _reshape_tensor_with_nans, reshape_flat, newaxis.
  induction t as [|ti t IH]; simpl; [reflexivity|].
  rewrite concat_app, List.filter_app, IH.
  rewrite concat_singletons, filter_padded. reflexivity.
Qed.

(** X8: for any non-empty list of sequences, [_get_padded_targets] returns
    an array of shape [n, d, 1] with [d] the largest length; a subject's
    entries come first in its row, followed by NaN up to [d], so cutting the
    row back to the subject's length gives the sequence back (NaN
    observations included); and unrolling the array gives the observations
    that are not NaN, subject after subject. *)
Theorem pad_targets_spec (t : list (list float)) :
  t <> [] ->
  exists d p,
    _get_padded_targets t = Ok p /\
    In d (map length t) /\ Forall (fun ti => length ti <= d) t /\
    length p = length t /\
    Forall (fun pi => length pi = d /\
                      Forall (fun cell => length cell = 1) pi) p /\
    zip_with (fun ti pi => concat (firstn (length ti) pi)) t p = t /\
    (forall i ti pi j, t !! i = Some ti -> p !! i = Some pi ->
       length ti <= j < d -> pi !! j = Some [nan]) /\
    _reshape_tensor_with_nans p =
      concat (map (List.filter (fun v => negb (isnan v))) t).
Proof.
  intros Hne.
  destruct (py_max_spec (map length t)) as (d & Hd & Hin & Hle).
  { destruct t; [congruence | discriminate]. }
  apply Forall_map in Hle.
  exists d, (newaxis (map (fun ti => ti ++ nan_vec (d - length ti)) t)).
  split; [unfold _get_padded_targets; rewrite Hd; reflexivity|].
  split; [exact Hin | split; [exact Hle|]].
  split; [unfold newaxis; rewrite !length_map; reflexivity|].
  split; [|split; [|split; [|apply strip_padded_any]]].
  - unfold newaxis. rewrite map_map. apply Forall_map.
    apply Forall_lookup. intros i ti Hi.
    rewrite Forall_lookup in Hle. specialize (Hle i ti Hi). simpl in Hle.
    rewrite length_map, length_app. unfold nan_vec.
    rewrite repeat_length. split; [lia|].
    apply Forall_map. apply Forall_forall. intros; reflexivity.
  - clear. unfold newaxis. rewrite map_map.
    induction t as [|ti t IH]; simpl; [reflexivity|].
    rewrite IH. f_equal.
    rewrite map_app, <- (length_map (fun v : float => [v]) ti).
    rewrite take_app_length. apply concat_singletons.
  - intros i ti pi j Hi Hpi Hj. unfold newaxis in Hpi.
    rewrite map_map, lookup_map, Hi in Hpi. simpl in Hpi.
    injection Hpi as <-.
    rewrite lookup_map, lookup_app_r by lia.
    unfold nan_vec. rewrite lookup_repeat by lia. reflexivity.
Qed.

Lemma pad_targets_spec_witness :
  Scenarios.times5 <> [] /\
  exists d p,
    _get_padded_targets Scenarios.times5 = Ok p /\
    In d (map length Scenarios.times5) /\
    length p = 5 /\
    length (_reshape_tensor_with_nans p) = 8.
Proof.
  split; [discriminate|].
  destruct (pad_targets_spec Scenarios.times5)
    as (d & p & Hp & Hd & _ & Hl & _ & _ & _ & Hr); [discriminate|].
  exists d, p. split; [exact Hp | split; [exact Hd | split; [exact Hl|]]].
  rewrite Hr. reflexivity.
Defined.

(** X9: for a non-empty list of well-formed arrays of one feature
    dimension [f], [_get_padded_features] returns a rectangular array:
    every subject has [d] rows, [d] the largest length, and every row has
    [f] entries. *)
Theorem pad_features_rectangular (x : list matrix) (f : nat) :
  x <> [] ->
  Forall (fun xi => wf_matrix xi /\ ncols xi = f) x ->
  exists d p,
    _get_padded_features x = Ok p /\
    In d (map len x) /\
    length p = length x /\
    Forall (fun pi => length pi = d /\
                      Forall (fun row => length row = f) pi) p.
Proof.
  intros Hne Hwf.
  destruct (py_max_spec (map len x)) as (d & Hd & Hin & Hle).
  { destruct x; [congruence | discriminate]. }
  apply Forall_map in Hle.
  assert (Hsame : same_ncols x = true).
  { destruct x as [|x0 x]; [reflexivity|]. simpl.
    inversion Hwf as [|? ? [_ H0] Hrest]; subst.
    apply forallb_forall. intros xi Hxi.
    rewrite List.Forall_forall in Hrest.
    destruct (Hrest xi Hxi) as [_ ->]. apply Nat.eqb_refl. }
  exists d, (map (fun xi => rows xi ++ nan_rows (d - len xi) (ncols xi)) x).
  split; [|split; [exact Hin | split; [apply length_map|]]].
  - unfold _get_padded_features. rewrite Hd. simpl. unfold np_array.
    rewrite same_ncols_pad, Hsame, map_map. reflexivity.
  - apply Forall_map. apply Forall_lookup. intros i xi Hi.
    rewrite Forall_lookup in Hle, Hwf.
    specialize (Hle i xi Hi). destruct (Hwf i xi Hi) as [Hw Hf].
    simpl in *. rewrite length_app. unfold nan_rows.
    rewrite repeat_length. split; [unfold len in *; lia|].
    apply Forall_app. split.
    + unfold wf_matrix in Hw. rewrite Hf in Hw. exact Hw.
    + apply Forall_lookup. intros j row Hj.
      apply lookup_lt_Some in Hj as Hlt. rewrite repeat_length in Hlt.
      rewrite lookup_repeat in Hj by exact Hlt. injection Hj as <-.
      rewrite repeat_length. exact Hf.
Qed.

Lemma pad_features_rectangular_witness :
  Scenarios.features5 <> [] /\
  exists d p,
    _get_padded_features Scenarios.features5 = Ok p /\
    In d (map len Scenarios.features5) /\
    length p = 5 /\
    Forall (fun pi => length pi = d /\
                      Forall (fun row => length row = 1) pi) p.
Proof.
  split; [discriminate|].
  apply (pad_features_rectangular Scenarios.features5 1); [discriminate|].
  repeat constructor.
Defined.

(** ** A negative batch size *)

Section NegativeBatch.

Context {C : Collaborators}.

(** With a negative batch size the batches of an epoch hold no subject. *)
Lemma negative_batches (a : train_args) :
  (bs a < 0)%Z ->
  length (t_train a) = length (x_train a) ->
  length (e_train a) = length (x_train a) ->
  exists nb,
    count_batches (length (x_train a)) (bs a) = Ok nb /\
    (batches a nb = [] \/ batches a nb = [([], [], [])]).
Proof.
  intros Hbs Ht He.
  set (n := length (x_train a)) in *.
  unfold count_batches.
  destruct (Z.eqb_spec (bs a) 0) as [E | _]; [lia|].
  eexists. split; [reflexivity|].
  assert (Hq : Z.quot (Z.of_nat n) (bs a) = (- (Z.of_nat n / - bs a))%Z).
  { transitivity (Z.quot (Z.of_nat n) (- (- bs a))).
    - f_equal. lia.
    - rewrite Z.quot_opp_r by lia. rewrite Z.quot_div_nonneg by lia.
      reflexivity. }
  rewrite Hq.
  destruct (Z.lt_ge_cases (Z.of_nat n) (- bs a)) as [Hlt | Hge].
  - right. rewrite Z.div_small by lia. unfold batches. simpl.
    assert (Hs : forall y : tensor3, length y = n ->
              batch_slice y (bs a) 0 = []).
    { intros y Hy. unfold batch_slice.
      change (Z.of_nat 0) with 0%Z.
      rewrite Z.mul_0_l, Z.add_0_l, Z.mul_1_l.
      unfold py_slice, slice_index. cbv zeta. rewrite Hy.
      destruct (Z.ltb_spec 0 0); [lia|].
      destruct (Z.ltb_spec (bs a) 0); [|lia].
      replace (Z.to_nat (Z.max 0 (Z.of_nat n + bs a) - Z.min 0 (Z.of_nat n)))
        with 0 by lia.
      reflexivity. }
    rewrite (Hs _ eq_refl), (Hs _ Ht), (Hs _ He). reflexivity.
  - left. unfold batches.
    assert (Hq1 : (1 <= Z.of_nat n / - bs a)%Z)
      by (apply Z.div_le_lower_bound; lia).
    replace (Z.to_nat _) with 0 by lia. reflexivity.
Qed.

(** X13: with a negative batch size no subject is ever trained on: either
    the count of the batches is zero or less, the loop over the batches does
    not run and neither [train_epoch] nor the epochs of a call whose setup
    succeeded change the model or the optimizer; or there is a single batch,
    it is empty, and [train_epoch] and every such epoch take one optimizer
    step, on the gradient of [conditional_loss] on no data. *)
Theorem negative_batch_size_trains_on_nothing (l : loc) (a : train_args) :
  (bs a < 0)%Z ->
  length (t_train a) = length (x_train a) ->
  length (e_train a) = length (x_train a) ->
  exists nb,
    count_batches (length (x_train a)) (bs a) = Ok nb /\
    (forall (h h0 : heap) (fr0 : train_locals) (nb' : Z),
       train_setup h l a = Ok (fr0, nb', h0) -> nb' = nb) /\
    ((batches a nb = [] /\
      epoch_trains_by l a nb (fun s => s) /\
      (forall (h h0 : heap) (fr0 : train_locals) (nb' : Z) (m0 : model),
         train_setup h l a = Ok (fr0, nb', h0) -> h0 !! l = Some m0 ->
         run_trains_by h l a m0 (fun s => s)))
     \/
     (batches a nb = [([], [], [])] /\
      epoch_trains_by l a nb (fun s => input_descend a s ([], [], [])) /\
      (forall (h h0 : heap) (fr0 : train_locals) (nb' : Z) (m0 : model),
         train_setup h l a = Ok (fr0, nb', h0) -> h0 !! l = Some m0 ->
         run_trains_by h l a m0
           (fun s => input_descend a s ([], [], []))))).
Proof.
  intros Hbs Ht He.
  destruct (negative_batches a Hbs Ht He) as (nb & Hc & Hb).
  assert (Hnb : forall (h h0 : heap) (fr0 : train_locals) (nb' : Z),
            train_setup h l a = Ok (fr0, nb', h0) -> nb' = nb).
  { intros h h0 fr0 nb' Hsetup.
    destruct (train_setup_inv _ _ _ _ _ _ Hsetup) as [_ Hnb'].
    congruence. }
  exists nb. split; [exact Hc | split; [exact Hnb|]].
  destruct Hb as [Hb | Hb]; [left | right]; (split; [exact Hb | split]).
  - apply (epoch_trains_by_ext l a nb (epoch_descend a nb));
      [|apply train_epoch_trains].
    intros s. unfold epoch_descend. rewrite Hb. reflexivity.
  - intros h h0 fr0 nb' m0 Hsetup Hl0.
    pose proof (Hnb _ _ _ _ Hsetup) as ->.
    apply (run_trains_by_ext h l a m0 (epoch_descend a nb));
      [|exact (train_run_trains h l a fr0 nb h0 m0 Hsetup Hl0)].
    intros s. unfold epoch_descend. rewrite Hb. reflexivity.
  - apply (epoch_trains_by_ext l a nb (epoch_descend a nb));
      [|apply train_epoch_trains].
    intros s. unfold epoch_descend. rewrite Hb. reflexivity.
  - intros h h0 fr0 nb' m0 Hsetup Hl0.
    pose proof (Hnb _ _ _ _ Hsetup) as ->.
    apply (run_trains_by_ext h l a m0 (epoch_descend a nb));
      [|exact (train_run_trains h l a fr0 nb h0 m0 Hsetup Hl0)].
    intros s. unfold epoch_descend. rewrite Hb. reflexivity.
Qed.

End NegativeBatch.

Lemma negative_batch_size_trains_on_nothing_witness :
  (exists nb, count_batches 5 (-2) = Ok nb /\
              @batches (Scenarios.args5 (-2)) nb = [] /\
     exists ex fr h',
       @train_dsm_run Toy.T (Toy.heap0 "Adam") 1%positive
         (Scenarios.args5 (-2)) = Ok (ex, fr, h') /\
       tr_costs fr = [Toy.f1_0; Toy.f1_0; Toy.f1_0; Toy.f1_0] /\
       tr_optimizer fr = @MkOptimizer Toy.T Adam 1%positive lit_1e_4 0) /\
  (exists nb, count_batches 5 (-7) = Ok nb /\
              @batches (Scenarios.args5 (-7)) nb = [([], [], [])] /\
     exists ex fr h',
       @train_dsm_run Toy.T (Toy.heap0 "Adam") 1%positive
         (Scenarios.args5 (-7)) = Ok (ex, fr, h') /\
       tr_costs fr = [Toy.f1_0; Toy.f1_2; Toy.f1_3; Toy.f1_5] /\
       tr_optimizer fr = @MkOptimizer Toy.T Adam 1%positive lit_1e_4 4).
Proof.
  split.
  - destruct (@negative_batch_size_trains_on_nothing Toy.T 1%positive
                (Scenarios.args5 (-2)))
      as (nb & Hc & _ & [(Hb & _ & Hrun) | (Hb & _)]);
      [reflexivity | reflexivity | reflexivity | |].
    + exists nb. split; [exact Hc | split; [exact Hb|]].
      edestruct (Hrun (Toy.heap0 "Adam"))
        as (ex & fr & h' & Hr & _ & _ & _ & Ho & Hcs & _);
        [vm_compute; reflexivity | vm_compute; reflexivity |].
      exists ex, fr, h'. split; [exact Hr|].
      assert (HE : length (tr_costs fr) = 4).
      { vm_compute in Hr. injection Hr as _ <- _. reflexivity. }
      rewrite HE in Ho, Hcs. split; [rewrite Hcs | rewrite Ho]; reflexivity.
    + vm_compute in Hc. injection Hc as <-. discriminate Hb.
  - destruct (@negative_batch_size_trains_on_nothing Toy.T 1%positive
                (Scenarios.args5 (-7)))
      as (nb & Hc & _ & [(Hb & _) | (Hb & _ & Hrun)]);
      [reflexivity | reflexivity | reflexivity | |].
    + vm_compute in Hc. injection Hc as <-. discriminate Hb.
    + exists nb. split; [exact Hc | split; [exact Hb|]].
      edestruct (Hrun (Toy.heap0 "Adam"))
        as (ex & fr & h' & Hr & _ & _ & _ & Ho & Hcs & _);
        [vm_compute; reflexivity | vm_compute; reflexivity |].
      exists ex, fr, h'. split; [exact Hr|].
      assert (HE : length (tr_costs fr) = 4).
      { vm_compute in Hr. injection Hr as _ <- _. reflexivity. }
      rewrite HE in Ho, Hcs. split; [rewrite Hcs | rewrite Ho]; reflexivity.
Defined.

(** ** Ties in [np.argmax] *)

(** Below the current largest value, which is strictly below a new one: the
    new one is not below it. *)
Lemma le_new_not_below (x mp c : float) :
  isnan c = false ->
  le x mp = true -> le c mp = false -> le c x = false.
Proof.
  intros Hc H1 H2.
  destruct (le_not_nan _ _ H1) as [Hx Hmp].
  destruct (le c x) eqn:E; [|reflexivity].
  apply le_key in H1, E; [|assumption..].
  assert (H3 : ~ key_le (key c) (key mp)).
  { intros H. apply le_key in H; [|assumption..]. congruence. }
  unfold key_le in *. lia.
Qed.

(** Without NaN the scan ends on the first index of a largest entry. *)
Lemma argmax_scan_first (ip : list float) :
  forall (seen : list float) (mp : float) (max_ind : nat),
    Forall (fun c => isnan c = false) ip ->
    seen !! max_ind = Some mp ->
    isnan mp = false ->
    Forall (fun c => le c mp = true) seen ->
    (forall j c, j < max_ind -> seen !! j = Some c -> le mp c = false) ->
    first_largest (seen ++ ip) (argmax_scan mp max_ind (length seen) ip).
Proof.
  induction ip as [|c ip IH]; intros seen mp max_ind Hnn Hmp Hmpn Hle Hfst.
  - exists mp. rewrite app_nil_r. simpl. auto.
  - inversion Hnn as [|? ? Hc Hnn']; subst.
    replace (seen ++ c :: ip) with ((seen ++ [c]) ++ ip)
      by (rewrite <- app_assoc; reflexivity).
    simpl. rewrite Hc.
    replace (S (length seen)) with (length (seen ++ [c]))
      by (rewrite length_app; simpl; lia).
    apply lookup_lt_Some in Hmp as Hlt.
    destruct (le c mp) eqn:E; simpl.
    + apply IH; [exact Hnn' | | exact Hmpn | |].
      * apply lookup_app_l_Some. exact Hmp.
      * apply Forall_app. split; [assumption | repeat constructor; assumption].
      * intros j x Hj Hx. rewrite lookup_app_l in Hx by lia.
        exact (Hfst j x Hj Hx).
    + apply IH; [exact Hnn' | | exact Hc | |].
      * rewrite lookup_app_r by lia. rewrite Nat.sub_diag. reflexivity.
      * apply Forall_app. split.
        -- rewrite Forall_lookup in Hle. apply Forall_lookup.
           intros j x Hj. pose proof (Hle j x Hj) as Hx.
           destruct (le_not_nan _ _ Hx) as [Hxn _].
           apply (le_below_new x mp c); assumption.
        -- repeat constructor. apply le_refl, Hc.
      * intros j x Hj Hx. rewrite lookup_app_l in Hx by exact Hj.
        rewrite Forall_lookup in Hle.
        apply (le_new_not_below x mp c Hc (Hle j x Hx) E).
Qed.

Lemma np_argmax_first (a : list float) :
  a <> [] -> Forall (fun c => isnan c = false) a ->
  exists m, np_argmax a = Ok m /\ first_largest a m.
Proof.
  destruct a as [|c a]; [congruence | intros _ Hnn].
  inversion Hnn as [|? ? Hc Hnn']; subst. simpl. rewrite Hc.
  eexists. split; [reflexivity|].
  apply (argmax_scan_first a [c] c 0 Hnn' eq_refl Hc).
  - repeat constructor. apply le_refl, Hc.
  - intros j x Hj. lia.
Qed.

Section Ties.

Context {C : Collaborators}.

(** X14: when [train_dsm] stops early and no recorded cost is a NaN, the
    snapshot it restores is that of the earliest epoch whose cost is the
    largest: every recorded cost is at most that cost and every earlier one
    is strictly below it. *)
Theorem early_stop_restores_earliest_largest (h : heap) (l : loc)
    (a : train_args) (fr0 : train_locals) (nb : Z) (h0 : heap) (m0 : model)
    (fr : train_locals) (h' : heap) :
  train_setup h l a = Ok (fr0, nb, h0) ->
  h0 !! l = Some m0 ->
  train_dsm_run h l a = Ok (Returned, fr, h') ->
  Forall (fun c => isnan c = false) (tr_costs fr) ->
  let s0 := (init_buffers Adam, m0) in
  exists maxm,
    first_largest (tr_costs fr) maxm /\
    h' !! l =
      Some (load_state_dict (snd (model_after a nb s0 (S (tr_i fr))))
              (epoch_snapshot a nb s0 maxm)).
Proof.
  intros Hsetup Hl0 Hres Hnn s0.
  pose proof (train_loop_spec l a nb (init_buffers Adam, m0) (n_iter a)
                0 0 0 inf h0 Hl0) as H.
  cbv beta zeta in H.
  rewrite <- (train_run_loop h l a fr0 nb h0 m0 Hsetup) in H.
  fold s0 in H.
  destruct (train_stop (epoch_cost a nb s0) 0 (n_iter a) 0 inf) as [i|].
  - destruct H as (Hi & maxm & oc' & Hm & Hle & Hrun).
    rewrite Hrun in Hres. injection Hres as <- <-.
    cbn [tr_costs tr_i] in *.
    destruct (np_argmax_first (map (epoch_cost a nb s0) (seq 0 (S i))))
      as (m' & Hm' & Hfirst); [rewrite <- cons_seq; discriminate | exact Hnn|].
    rewrite Hm in Hm'. injection Hm' as <-.
    exists maxm. split; [exact Hfirst | apply lookup_insert_eq].
  - destruct H as (pat' & oc' & Hrun). rewrite Hrun in Hres. discriminate.
Qed.

End Ties.

Lemma early_stop_restores_earliest_largest_witness :
  exists fr h',
    @train_dsm_run Scenarios.Plateau (Toy.heap0 "Adam") 1%positive Toy.args0 =
      Ok (Returned, fr, h') /\
    tr_costs fr = [Toy.f2_0; Toy.f2_0; Toy.f2_0; Toy.f2_0] /\
    first_largest (tr_costs fr) 0 /\
    (weights <$> (params <$> h' !! 1%positive)) = Some 1.
Proof.
  edestruct (@early_stop_restores_earliest_largest Scenarios.Plateau
               (Toy.heap0 "Adam") 1%positive Toy.args0)
    as (maxm & Hfirst & Hl);
    [vm_compute; reflexivity | vm_compute; reflexivity
     | vm_compute; reflexivity | repeat constructor |].
  eexists _, _. split; [vm_compute; reflexivity|].
  split; [reflexivity|].
  assert (Hm : maxm = 0).
  { destruct Hfirst as (cm & Hcm & _ & Hlt).
    destruct maxm as [|k]; [reflexivity|].
    assert (Hk : cm = Toy.f2_0).
    { cbn [tr_costs] in Hcm.
      destruct k as [|[|[|k]]]; vm_compute in Hcm;
        first [discriminate | injection Hcm as <-; reflexivity]. }
    specialize (Hlt 0 Toy.f2_0 ltac:(lia) eq_refl).
    rewrite Hk in Hlt. discriminate. }
  subst maxm. split; [exact Hfirst|].
  vm_compute. reflexivity.
Defined.
